(** * Ground-truth annotation loading of the HeiChole evaluator

    Shallow embedding of [HierarchicalEvaluator.load_ground_truth]
    (domain_adaptation/hei_chole/evaluation/evaluate_HeiChole.py) and the
    properties of the annotation index it builds.

    Layout: the Python values the function handles (decoded JSON, insertion
    ordered dictionaries, [defaultdict]), the builtins it calls ([int],
    [len], [dict.get], [dict.items], [>], [os.path.join]), an
    exception-and-state monad for the statements of the function, the
    function itself, and then the theorems. *)

From Stdlib Require Import ZArith List String Ascii Bool Permutation Sorted Lia.
From Stdlib Require Import SpecFloat.
Import ListNotations.

Set Warnings "-register-all".
Local Open Scope string_scope.
Local Open Scope Z_scope.

(** ** Python values *)

(** What [json.load] returns.  A JSON number without fraction or exponent
    decodes to an [int] (unbounded), any other number to a [float]; floats
    are IEEE-754 values, kept in the specification format of the standard
    library (sign, mantissa, exponent; zeros, infinities and NaN, which
    Python's decoder accepts).  An object decodes to a [dict], kept as the
    list of its items in insertion order.  A [str] is a sequence of code
    points; the embedding covers the code points below 256, one per
    character. *)
Inductive json : Type :=
| JNull
| JBool (b : bool)
| JInt (z : Z)
| JFloat (f : spec_float)
| JStr (s : string)
| JArr (l : list json)
| JObj (items : list (string * json)).

(** The exception classes the function can meet. *)
Inductive exn : Type :=
| FileNotFoundError
| JSONDecodeError
| AttributeError
| TypeError
| IndexError
| ValueError.

(** The outcome of evaluating a Python expression. *)
Inductive result (A : Type) : Type :=
| Ok (a : A)
| Raise (e : exn).
Arguments Ok {A} a.
Arguments Raise {A} e.

Definition rbind {A B} (r : result A) (k : A -> result B) : result B :=
  match r with
  | Ok a => k a
  | Raise e => Raise e
  end.

Declare Scope result_scope.
Delimit Scope result_scope with result.
Notation "x <- r ;; k" := (rbind r (fun x => k))
  (at level 61, r at next level, right associativity) : result_scope.

(** A [for] loop whose body may raise: the loop state is threaded through
    the items in order and the first exception leaves the loop. *)
Fixpoint for_each {S A} (body : S -> A -> result S) (l : list A) (s : S)
  : result S :=
  match l with
  | [] => Ok s
  | a :: l' => rbind (body s a) (for_each body l')
  end.

(** ** Dictionaries *)

(** Keys of a [dict]: values with an equality test. *)
Class PyKey (K : Type) : Type := {
  key_eqb : K -> K -> bool;
  key_eqb_eq : forall a b, key_eqb a b = true <-> a = b
}.

#[export] Instance PyKey_Z : PyKey Z :=
  {| key_eqb := Z.eqb; key_eqb_eq := Z.eqb_eq |}.

#[export] Instance PyKey_string : PyKey string :=
  {| key_eqb := String.eqb; key_eqb_eq := String.eqb_eq |}.

(** A [dict] is the list of its items in insertion order. *)
Definition dict (K V : Type) : Type := list (K * V).

Section Dict.
Context {K V : Type} `{PyKey K}.

(** [d.get(k)] / [k in d]. *)
Fixpoint dict_get (k : K) (d : dict K V) : option V :=
  match d with
  | [] => None
  | (k', v) :: d' => if key_eqb k k' then Some v else dict_get k d'
  end.

(** [d[k] = v]: an existing key keeps its place, a new key goes last. *)
Fixpoint dict_setitem (k : K) (v : V) (d : dict K V) : dict K V :=
  match d with
  | [] => [(k, v)]
  | (k', v') :: d' =>
      if key_eqb k k' then (k', v) :: d' else (k', v') :: dict_setitem k v d'
  end.

(** [list(d.keys())]. *)
Definition dict_keys (d : dict K V) : list K := map fst d.

(** [d[k]] on a [defaultdict] whose factory builds [fresh]: a missing key
    is first stored with the factory's value ([__missing__]); the value
    returned is the stored object. *)
Definition defaultdict_getitem (fresh : V) (k : K) (d : dict K V)
  : V * dict K V :=
  match dict_get k d with
  | Some v => (v, d)
  | None => (fresh, dict_setitem k fresh d)
  end.
End Dict.

(** ** Builtins *)

(** [o.get(key, default)]: only a [dict] has the method. *)
Definition py_get (o : json) (key : string) (default : json) : result json :=
  match o with
  | JObj items =>
      match dict_get key items with
      | Some v => Ok v
      | None => Ok default
      end
  | _ => Raise AttributeError
  end.

(** [len(o)]. *)
Definition py_len (o : json) : result nat :=
  match o with
  | JObj items => Ok (List.length items)
  | JArr l => Ok (List.length l)
  | JStr s => Ok (String.length s)
  | _ => Raise TypeError
  end.

(** [o.items()]. *)
Definition py_items (o : json) : result (list (string * json)) :=
  match o with
  | JObj items => Ok items
  | _ => Raise AttributeError
  end.

(** [l[i]] on a list. *)
Definition list_getitem {A} (l : list A) (i : nat) : result A :=
  match nth_error l i with
  | Some a => Ok a
  | None => Raise IndexError
  end.

(** [present > 0].  An [int] and a [float] compare by value (NaN compares
    false), a [bool] is the int 0 or 1, anything else is not ordered
    against an int. *)
Definition py_gt_zero (present : json) : result bool :=
  match present with
  | JInt z => Ok (0 <? z)
  | JFloat f => Ok (SFltb (S754_zero false) f)
  | JBool b => Ok b
  | _ => Raise TypeError
  end.

(** [int(s)] on a [str], base ten: optional white space around, an optional
    sign, then decimal digits which single underscores may separate.  More
    than [int_max_str_digits] digits are refused (the interpreter's default
    limit). *)
Definition is_space (c : ascii) : bool :=
  let n := nat_of_ascii c in
  (((9 <=? n) && (n <=? 13)) || (n =? 32) || (n =? 133) || (n =? 160))%nat.

Definition digit_value (c : ascii) : option Z :=
  let n := nat_of_ascii c in
  if ((48 <=? n) && (n <=? 57))%nat then Some (Z.of_nat n - 48) else None.

Definition is_underscore (c : ascii) : bool := (nat_of_ascii c =? 95)%nat.

Fixpoint skip_spaces (s : string) : string :=
  match s with
  | String c s' => if is_space c then skip_spaces s' else s
  | EmptyString => EmptyString
  end.

(** Digits and underscores from the front of [s]: the value read, the
    number of digits, and what follows.  [prev] tells that the character
    just read was an underscore. *)
Fixpoint scan_digits (s : string) (acc : Z) (digits : nat) (prev : bool)
  : option (Z * nat * string) :=
  match s with
  | EmptyString => if prev then None else Some (acc, digits, EmptyString)
  | String c s' =>
      match digit_value c with
      | Some d => scan_digits s' (10 * acc + d) (S digits) false
      | None =>
          if is_underscore c
          then (if prev then None else scan_digits s' acc digits true)
          else (if prev then None else Some (acc, digits, s))
      end
  end.

Definition int_max_str_digits : nat := 4300.

Definition py_int (s : string) : result Z :=
  let s1 := skip_spaces s in
  let '(negative, s2) :=
    match s1 with
    | String "-" r => (true, r)
    | String "+" r => (false, r)
    | _ => (false, s1)
    end in
  match s2 with
  | String c _ =>
      if is_underscore c then Raise ValueError
      else
        match scan_digits s2 0 0 false with
        | Some (v, digits, rest) =>
            if (digits =? 0)%nat then Raise ValueError
            else if (int_max_str_digits <? digits)%nat then Raise ValueError
            else
              match skip_spaces rest with
              | EmptyString => Ok (if negative then - v else v)
              | _ => Raise ValueError
              end
        | None => Raise ValueError
        end
  | EmptyString => Raise ValueError
  end.

(** [os.path.join(a, b)] (POSIX): an absolute [b] replaces [a]; otherwise
    [b] is appended, after a separator unless [a] is empty or ends with
    one. *)
Definition starts_with_sep (b : string) : bool :=
  match b with
  | String c _ => Ascii.eqb c "/"
  | EmptyString => false
  end.

Fixpoint ends_with_sep (a : string) : bool :=
  match a with
  | EmptyString => false
  | String c EmptyString => Ascii.eqb c "/"
  | String _ a' => ends_with_sep a'
  end.

Definition os_path_join (a b : string) : string :=
  if starts_with_sep b then b
  else if String.eqb a "" || ends_with_sep a then a ++ b
  else a ++ "/" ++ b.

(** ** The annotation index *)

(** One entry of the index: the dict the factory of [frame_annotations]
    builds, with its two keys ['instruments'] and ['verbs'], each holding a
    [defaultdict(int)] from names to ints. *)
Record FrameAnnotation : Type := {
  instruments : dict string Z;
  verbs : dict string Z
}.

Definition new_frame : FrameAnnotation :=
  {| instruments := []; verbs := [] |}.

(** [frame_annotations]: a [defaultdict] from frame numbers to entries. *)
Definition AnnotationIndex : Type := dict Z FrameAnnotation.

(** [frame_annotations[frame_number]['instruments'][instr_name] = 1].
    The subscript stores a fresh entry when the frame has none and returns
    the stored object, so the assignment into its ['instruments'] shows in
    the index. *)
Definition mark_instrument (frame_number : Z) (instr_name : string)
    (frame_annotations : AnnotationIndex) : AnnotationIndex :=
  let '(entry, stored) :=
    defaultdict_getitem new_frame frame_number frame_annotations in
  dict_setitem frame_number
    {| instruments := dict_setitem instr_name 1 (instruments entry);
       verbs := verbs entry |}
    stored.

(** [frame_annotations[frame_number]['verbs'][action_name] = 1]. *)
Definition mark_verb (frame_number : Z) (action_name : string)
    (frame_annotations : AnnotationIndex) : AnnotationIndex :=
  let '(entry, stored) :=
    defaultdict_getitem new_frame frame_number frame_annotations in
  dict_setitem frame_number
    {| instruments := instruments entry;
       verbs := dict_setitem action_name 1 (verbs entry) |}
    stored.

(** The local variables the frame loop updates. *)
Record loop_state : Type := {
  frame_annotations : AnnotationIndex;
  processed_frames : nat;
  frames_with_instruments : nat;
  frames_with_actions : nat
}.

Definition loop_start : loop_state :=
  {| frame_annotations := [];
     processed_frames := 0;
     frames_with_instruments := 0;
     frames_with_actions := 0 |}.

Section Loops.
Local Open Scope result_scope.

(** Body of [for instr_name, present in instruments.items()]; the state
    is the index and [has_instruments]. *)
Definition instrument_step (frame_number : Z)
    (st : AnnotationIndex * bool) (item : string * json)
  : result (AnnotationIndex * bool) :=
  let '(instr_name, present) := item in
  positive <- py_gt_zero present ;;
  if (positive : bool)
  then Ok (mark_instrument frame_number instr_name (fst st), true)
  else Ok st.

(** Body of [for action_name, present in actions.items()]. *)
Definition action_step (frame_number : Z)
    (st : AnnotationIndex * bool) (item : string * json)
  : result (AnnotationIndex * bool) :=
  let '(action_name, present) := item in
  positive <- py_gt_zero present ;;
  if (positive : bool)
  then Ok (mark_verb frame_number action_name (fst st), true)
  else Ok st.

(** Body of [for frame_num, frame_data in frames.items()]. *)
Definition frame_step (st : loop_state) (item : string * json)
  : result loop_state :=
  let '(frame_num, frame_data) := item in
  frame_number <- py_int frame_num ;;
  instrs <- py_get frame_data "instruments" (JObj []) ;;
  instr_items <- py_items instrs ;;
  with_instruments <-
    for_each (instrument_step frame_number) instr_items
      (frame_annotations st, false) ;;
  actions <- py_get frame_data "actions" (JObj []) ;;
  action_items <- py_items actions ;;
  with_actions <-
    for_each (action_step frame_number) action_items
      (fst with_instruments, false) ;;
  Ok {| frame_annotations := fst with_actions;
        processed_frames := S (processed_frames st);
        frames_with_instruments :=
          if snd with_instruments
          then S (frames_with_instruments st)
          else frames_with_instruments st;
        frames_with_actions :=
          if snd with_actions
          then S (frames_with_actions st)
          else frames_with_actions st |}.
End Loops.

(** ** The world of the function and its statements *)

(** A file of the dataset, as [open] followed by [json.load] sees it. *)
Inductive file : Type :=
| NotJSON
| Document (data : json).

(** One [print] call, with the values it formats ([json.dumps] of a decoded
    value does not raise). *)
Inductive output : Type :=
| LoadingAnnotationsFrom (json_file : string)
| DebugInformation
| TotalFramesInJSON (n : nat)
| ExampleFrameStructure
| JsonDumps (frame_data : json)
| ProcessingStatistics
| TotalFramesProcessed (n : nat)
| FramesWithInstruments (n : nat)
| FramesWithActions (n : nat)
| SampleOfProcessedFrames
| FrameHeader (frame_num : Z)
| InstrumentsOf (d : dict string Z)
| ActionsOf (d : dict string Z)
| ErrorLoadingAnnotations (e : exn).

(** What exists outside a call: the files by path, and what has been
    written to standard output. *)
Record world : Type := {
  files : string -> option file;
  stdout : list output
}.

(** A statement: runs in a world, ends normally or by an exception, and
    leaves a world. *)
Definition M (A : Type) : Type := world -> result A * world.

Definition ret {A} (a : A) : M A := fun w => (Ok a, w).

Definition bind {A B} (m : M A) (k : A -> M B) : M B :=
  fun w =>
    match m w with
    | (Ok a, w') => k a w'
    | (Raise e, w') => (Raise e, w')
    end.

Definition raise {A} (e : exn) : M A := fun w => (Raise e, w).

(** An expression that touches no state. *)
Definition lift {A} (r : result A) : M A := fun w => (r, w).

Definition print (o : output) : M unit :=
  fun w => (Ok tt, {| files := files w; stdout := stdout w ++ [o] |}).

(** [try: body / except Exception as e: handler e]. *)
Definition try_except {A} (body : M A) (handler : exn -> M A) : M A :=
  fun w =>
    match body w with
    | (Ok a, w') => (Ok a, w')
    | (Raise e, w') => handler e w'
    end.

(** [with open(json_file, 'r') as f: data = json.load(f)]. *)
Definition open_json_load (json_file : string) : M json :=
  fun w =>
    match files w json_file with
    | None => (Raise FileNotFoundError, w)
    | Some NotJSON => (Raise JSONDecodeError, w)
    | Some (Document data) => (Ok data, w)
    end.

Declare Scope io_scope.
Delimit Scope io_scope with io.
Notation "x <- m ;; k" := (bind m (fun x => k))
  (at level 61, m at next level, right associativity) : io_scope.
Notation "m ;; k" := (bind m (fun _ => k))
  (at level 61, right associativity) : io_scope.

(** The evaluator object; [load_ground_truth] reads [dataset_dir] only and
    assigns no attribute. *)
Record HierarchicalEvaluator : Type := {
  dataset_dir : string
}.

Definition json_file_of (self : HierarchicalEvaluator) (video : string)
  : string :=
  let labels_folder := os_path_join (dataset_dir self) "Labels" in
  os_path_join labels_folder (video ++ ".json").

Section LoadGroundTruth.
Local Open Scope io_scope.

(** The loop over [sample_frames]: both subscripts go through the
    [defaultdict]. *)
Fixpoint print_samples (sample_frames : list Z)
    (frame_annotations : AnnotationIndex) : M AnnotationIndex :=
  match sample_frames with
  | [] => ret frame_annotations
  | frame_num :: rest =>
      print (FrameHeader frame_num) ;;
      let '(e1, fa1) :=
        defaultdict_getitem new_frame frame_num frame_annotations in
      print (InstrumentsOf (instruments e1)) ;;
      let '(e2, fa2) := defaultdict_getitem new_frame frame_num fa1 in
      print (ActionsOf (verbs e2)) ;;
      print_samples rest fa2
  end.

Definition load_ground_truth (self : HierarchicalEvaluator)
    (video : string) : M AnnotationIndex :=
  let json_file := json_file_of self video in
  print (LoadingAnnotationsFrom json_file) ;;
  try_except
    (data <- open_json_load json_file ;;
     frames <- lift (py_get data "frames" (JObj [])) ;;
     print DebugInformation ;;
     total <- lift (py_len frames) ;;
     print (TotalFramesInJSON total) ;;
     frame_items <- lift (py_items frames) ;;
     first_frame <- lift (list_getitem frame_items 0) ;;
     print ExampleFrameStructure ;;
     print (JsonDumps (snd first_frame)) ;;
     st <- lift (for_each frame_step frame_items loop_start) ;;
     print ProcessingStatistics ;;
     print (TotalFramesProcessed (processed_frames st)) ;;
     print (FramesWithInstruments (frames_with_instruments st)) ;;
     print (FramesWithActions (frames_with_actions st)) ;;
     print SampleOfProcessedFrames ;;
     let sample_frames := firstn 3 (dict_keys (frame_annotations st)) in
     print_samples sample_frames (frame_annotations st))
    (fun e => print (ErrorLoadingAnnotations e) ;; raise e).
End LoadGroundTruth.

(** ** The index computation on its own *)

(** The index [load_ground_truth] computes from the decoded document, with
    the prints left out.  [load_ground_truth_result] below shows that this
    is what the function returns or raises. *)
Definition build_index (data : json) : result AnnotationIndex :=
  (frames <- py_get data "frames" (JObj []) ;;
   total <- py_len frames ;;
   frame_items <- py_items frames ;;
   first_frame <- list_getitem frame_items 0 ;;
   st <- for_each frame_step frame_items loop_start ;;
   Ok (frame_annotations st))%result.

(** [index[n]] on the returned [defaultdict]: the value the subscript
    evaluates to, and the index afterwards. *)
Definition lookup_frame (index : AnnotationIndex) (n : Z) : FrameAnnotation :=
  fst (defaultdict_getitem new_frame n index).

Definition after_lookup (index : AnnotationIndex) (n : Z) : AnnotationIndex :=
  snd (defaultdict_getitem new_frame n index).

(** The names stored for frame [n], none when the frame has no entry. *)
Definition instrument_set (index : AnnotationIndex) (n : Z) : list string :=
  match dict_get n index with
  | Some entry => dict_keys (instruments entry)
  | None => []
  end.

Definition verb_set (index : AnnotationIndex) (n : Z) : list string :=
  match dict_get n index with
  | Some entry => dict_keys (verbs entry)
  | None => []
  end.

(** ** Valid annotation documents *)

(** The frames object of a document with a top-level [frames] object. *)
Definition frames_of (data : json) : option (list (string * json)) :=
  match data with
  | JObj top =>
      match dict_get "frames" top with
      | Some (JObj frames) => Some frames
      | _ => None
      end
  | _ => None
  end.

Definition is_number (v : json) : bool :=
  match v with
  | JInt _ | JFloat _ => true
  | _ => false
  end.

Fixpoint distinct {K} `{PyKey K} (l : list K) : bool :=
  match l with
  | [] => true
  | k :: l' => negb (existsb (key_eqb k) l') && distinct l'
  end.

(** An [instruments] or [actions] sub-map: an object from distinct names
    to numbers. *)
Definition valid_presence_map (sub : json) : bool :=
  match sub with
  | JObj items =>
      distinct (map fst items) && forallb (fun it => is_number (snd it)) items
  | _ => false
  end.

(** A frame: an object whose [instruments] and [actions], where present,
    are presence maps. *)
Definition valid_frame (frame_data : json) : bool :=
  match py_get frame_data "instruments" (JObj []),
        py_get frame_data "actions" (JObj []) with
  | Ok instrs, Ok actions =>
      valid_presence_map instrs && valid_presence_map actions
  | _, _ => false
  end.

Definition parses (frame_num : string) : bool :=
  match py_int frame_num with
  | Ok _ => true
  | Raise _ => false
  end.

Definition same_frame_number (k k' : string) : bool :=
  match py_int k, py_int k' with
  | Ok n, Ok n' => n =? n'
  | _, _ => false
  end.

(** No two frame keys denote the same frame number. *)
Fixpoint distinct_frame_numbers (frames : list (string * json)) : bool :=
  match frames with
  | [] => true
  | (k, _) :: rest =>
      negb (existsb (fun it => same_frame_number k (fst it)) rest)
      && distinct_frame_numbers rest
  end.

(** A valid document: a top-level [frames] object whose keys are integer
    frame numbers, each once, and whose values are frames. *)
Definition valid_document (data : json) : bool :=
  match frames_of data with
  | Some frames =>
      forallb (fun it => parses (fst it) && valid_frame (snd it)) frames
      && distinct_frame_numbers frames
  | None => false
  end.

(** A presence value strictly greater than zero: a positive int, or a
    float that is positive and finite or positive infinity (a float is
    sign, mantissa and exponent, the mantissa a positive number; both
    zeros, the negative floats and NaN are not greater than zero). *)
Definition strictly_positive (value : json) : Prop :=
  match value with
  | JInt z => 0 < z
  | JFloat f =>
      (exists m e, f = S754_finite false m e) \/ f = S754_infinity false
  | _ => False
  end.

(** [name] has a value above zero in the sub-map [key] of a frame. *)
Definition present_in (frame_data : json) (key name : string) : Prop :=
  exists sub items v,
    py_get frame_data key (JObj []) = Ok sub /\
    py_items sub = Ok items /\
    In (name, v) items /\
    py_gt_zero v = Ok true.

(** The frame has some instrument or some action above zero. *)
Definition has_positive (frame_data : json) : Prop :=
  exists name,
    present_in frame_data "instruments" name \/
    present_in frame_data "actions" name.

(** The assignments of a run, in order: frame number, whether the name is
    a verb, and the name. *)
Definition mark : Type := (Z * bool * string)%type.

Definition apply_mark (index : AnnotationIndex) (m : mark) : AnnotationIndex :=
  let '(n, is_verb, name) := m in
  if is_verb then mark_verb n name index else mark_instrument n name index.

Definition sub_key (is_verb : bool) : string :=
  if is_verb then "actions" else "instruments".

Definition names_of (is_verb : bool) (entry : FrameAnnotation)
  : dict string Z :=
  if is_verb then verbs entry else instruments entry.

(** Every stored name holds the int 1. *)
Definition all_ones (index : AnnotationIndex) : Prop :=
  forall n entry is_verb name x,
    dict_get n index = Some entry ->
    In (name, x) (names_of is_verb entry) ->
    x = 1.

(** A statement that only reads the files and prints: the files stay, the
    output grows at its end, and the files determine the outcome. *)
Definition reads_files_only {A} (m : M A) : Prop :=
  forall w,
    files (snd (m w)) = files w /\
    (exists out, stdout (snd (m w)) = (stdout w ++ out)%list) /\
    forall w', files w' = files w -> fst (m w') = fst (m w).

(** ** Example documents *)

(** One half as a float: mantissa 2^52, exponent -53. *)
Definition half : spec_float := S754_finite false 4503599627370496 (-53).

(** Frame 0 shows a grasper (raw value 5) cutting (raw value 0.5) and no
    hook; frame 1 lists a grasper that is not there. *)
Definition two_frames_items : list (string * json) :=
  [("0", JObj [("instruments", JObj [("grasper", JInt 5); ("hook", JInt 0)]);
               ("actions", JObj [("cut", JFloat half)])]);
   ("1", JObj [("instruments", JObj [("grasper", JInt 0)])])].

Definition two_frames : json := JObj [("frames", JObj two_frames_items)].

Definition two_frames_index : AnnotationIndex :=
  [(0, {| instruments := [("grasper", 1)]; verbs := [("cut", 1)] |})].

(** Frame 7 has an empty [instruments] and no [actions]. *)
Definition bare_frame_items : list (string * json) :=
  [("0", JObj [("instruments", JObj [("grasper", JInt 1)])]);
   ("7", JObj [("instruments", JObj [])])].

Definition bare_frame : json := JObj [("frames", JObj bare_frame_items)].

Definition bad_key_items : list (string * json) :=
  [("0", JObj [("instruments", JObj [("grasper", JInt 1)])]);
   ("abc", JObj [("instruments", JObj [("hook", JInt 1)])])].

Definition bad_key : json := JObj [("frames", JObj bad_key_items)].

Definition no_frames : json := JObj [("frames", JObj [])].

Definition heichole : HierarchicalEvaluator :=
  {| dataset_dir := "/data/Bartscht/HeiChole" |}.

(** A dataset with one file per example, and nothing printed yet. *)
Definition dataset : world :=
  {| files := fun path =>
       if String.eqb path "/data/Bartscht/HeiChole/Labels/VID01.json"
       then Some (Document two_frames)
       else if String.eqb path "/data/Bartscht/HeiChole/Labels/VID02.json"
       then Some (Document bare_frame)
       else if String.eqb path "/data/Bartscht/HeiChole/Labels/VID03.json"
       then Some (Document bad_key)
       else if String.eqb path "/data/Bartscht/HeiChole/Labels/VID04.json"
       then Some (Document no_frames)
       else if String.eqb path "/data/Bartscht/HeiChole/Labels/VID05.json"
       then Some NotJSON
       else None;
     stdout := [] |}.

(** ** Documents the loader accepts, and what it prints *)

(** A value that [>] compares with an int: a [bool], an [int] or a
    [float]. *)
Definition is_ordered (v : json) : bool :=
  match v with
  | JBool _ | JInt _ | JFloat _ => true
  | _ => false
  end.

(** A sub-map the inner loops get through: an object of ordered values. *)
Definition readable_presence_map (sub : json) : bool :=
  match sub with
  | JObj items => forallb (fun it => is_ordered (snd it)) items
  | _ => false
  end.

(** A frame body the loop gets through: an object whose [instruments] and
    [actions], where present, are readable. *)
Definition readable_frame (frame_data : json) : bool :=
  match py_get frame_data "instruments" (JObj []),
        py_get frame_data "actions" (JObj []) with
  | Ok instrs, Ok actions =>
      readable_presence_map instrs && readable_presence_map actions
  | _, _ => false
  end.

(** A document with a [frames] object of at least one frame, all keys
    integers and all bodies readable. *)
Definition loadable (data : json) : bool :=
  match frames_of data with
  | Some (f :: rest) =>
      forallb (fun it => parses (fst it) && readable_frame (snd it)) (f :: rest)
  | _ => false
  end.

(** The test [present > 0] holds. *)
Definition above_zero (v : json) : bool :=
  match py_gt_zero v with
  | Ok true => true
  | _ => false
  end.

(** The sub-map [key] of the frame has a value above zero. *)
Definition has_present (frame_data : json) (key : string) : bool :=
  match py_get frame_data key (JObj []) with
  | Ok (JObj items) => existsb (fun it => above_zero (snd it)) items
  | _ => false
  end.

Definition count_frames_with (key : string) (frames : list (string * json))
  : nat :=
  List.length (filter (fun it => has_present (snd it) key) frames).

(** The exception one frame makes the loop raise, if any. *)
Definition frame_error (item : string * json) : option exn :=
  match frame_step loop_start item with
  | Ok _ => None
  | Raise e => Some e
  end.

(** The lines of the sample loop for an index. *)
Definition sample_lines (index : AnnotationIndex) : list output :=
  flat_map
    (fun n => [FrameHeader n;
               InstrumentsOf (instruments (lookup_frame index n));
               ActionsOf (verbs (lookup_frame index n))])
    (firstn 3 (dict_keys index)).

(** The lines a run that returns prints, in order. *)
Definition success_lines (json_file : string) (frames : list (string * json))
    (first_frame_data : json) (index : AnnotationIndex) : list output :=
  ([LoadingAnnotationsFrom json_file;
    DebugInformation;
    TotalFramesInJSON (List.length frames);
    ExampleFrameStructure;
    JsonDumps first_frame_data;
    ProcessingStatistics;
    TotalFramesProcessed (List.length frames);
    FramesWithInstruments (count_frames_with "instruments" frames);
    FramesWithActions (count_frames_with "actions" frames);
    SampleOfProcessedFrames] ++ sample_lines index)%list.

(** The lines printed between the first line and the error line of a run
    that raises: progress lines only. *)
Definition progress_line (o : output) : Prop :=
  o = DebugInformation \/ (exists n, o = TotalFramesInJSON n) \/
  o = ExampleFrameStructure \/ exists frame_data, o = JsonDumps frame_data.

(** A dict as Python keeps one: keys once each; for the index also names
    once each and no entry without a name. *)
Definition proper_index (index : AnnotationIndex) : Prop :=
  NoDup (dict_keys index) /\
  forall n entry,
    In (n, entry) index ->
    NoDup (dict_keys (instruments entry)) /\
    NoDup (dict_keys (verbs entry)) /\
    (instruments entry <> [] \/ verbs entry <> []).

(** A key appended unless it is there. *)
Definition add_key (keys : list Z) (n : Z) : list Z :=
  if existsb (Z.eqb n) keys then keys else (keys ++ [n])%list.

(** The numbers of the frames that have something present, in document
    order, and the same list with later repetitions dropped. *)
Definition present_frame_numbers (frames : list (string * json)) : list Z :=
  flat_map
    (fun it =>
       match py_int (fst it) with
       | Ok n =>
           if has_present (snd it) "instruments" || has_present (snd it) "actions"
           then [n] else []
       | Raise _ => []
       end)
    frames.

Definition first_occurrences (l : list Z) : list Z := fold_left add_key l [].

(** ** Feature collection (evaluate_features_CholeCT50.py) *)

(** [s.lower()] on the code points below 256: the letters A-Z and the
    capital letters of the Latin-1 block (192-222 without the
    multiplication sign 215) move up by 32. *)
Definition lower_char (c : ascii) : ascii :=
  let n := nat_of_ascii c in
  if (((65 <=? n) && (n <=? 90)) ||
      ((192 <=? n) && (n <=? 222) && negb (n =? 215)))%nat
  then ascii_of_nat (n + 32)
  else c.

Fixpoint py_lower (s : string) : string :=
  match s with
  | EmptyString => EmptyString
  | String c s' => String (lower_char c) (py_lower s')
  end.

Section FeatureCollection.
(** The array [features.cpu().numpy()] of one frame: one row, since the
    input is a batch of one image. *)
Context {F : Type}.

(** What the loop body of [extract_and_visualize_features] gets for one
    frame file from the detector and the extractor, taken here as returned
    without exception: for each box of [detections[0].boxes] its class name
    [detections[0].names[int(box.cls)]], and the features of the frame. *)
Record frame_result : Type := {
  box_names : list string;
  features_np : F
}.

(** The three lists the loop fills. *)
Record collected : Type := {
  all_features : list F;
  all_labels : list string;
  frame_indices : list nat
}.

Definition nothing_collected : collected :=
  {| all_features := []; all_labels := []; frame_indices := [] |}.

(** [for _ in range(count): all_features.append(..);
    frame_indices.append(..)]. *)
Fixpoint append_per_label (count : nat) (features : F) (frame_idx : nat)
    (acc : list F * list nat) : list F * list nat :=
  match count with
  | O => acc
  | S count' =>
      append_per_label count' features frame_idx
        ((fst acc ++ [features])%list, (snd acc ++ [frame_idx])%list)
  end.

(** The body of the frame loop. *)
Definition collect_frame (acc : collected) (frame_idx : nat) (r : frame_result)
  : collected :=
  if (0 <? List.length (box_names r))%nat
  then
    let frame_labels := map py_lower (box_names r) in
    let appended :=
      append_per_label (List.length frame_labels) (features_np r) frame_idx
        (all_features acc, frame_indices acc) in
    {| all_features := fst appended;
       all_labels := (all_labels acc ++ frame_labels)%list;
       frame_indices := snd appended |}
  else acc.

(** [for frame_idx, frame_file in enumerate(frame_files)], from
    [frame_idx] on. *)
Fixpoint collect_from (frame_idx : nat) (frames : list frame_result)
    (acc : collected) : collected :=
  match frames with
  | [] => acc
  | r :: frames' =>
      collect_from (S frame_idx) frames' (collect_frame acc frame_idx r)
  end.

(** What [extract_and_visualize_features] hands to [np.savez] and
    returns, with [features_array] kept as the list of the one-row blocks
    [np.concatenate] joins; [None] stands for the early
    [return None, None], taken when no features were collected. *)
Definition extract_and_visualize_features (frames : list frame_result)
  : option collected :=
  let acc := collect_from 0 frames nothing_collected in
  match all_features acc with
  | [] => None
  | _ :: _ => Some acc
  end.
End FeatureCollection.

Arguments frame_result : clear implicits.
Arguments collected : clear implicits.

(** [sum(1 for label in labels if label == instrument)]. *)
Definition instrument_count (labels : list string) (instrument : string)
  : nat :=
  List.length (filter (fun label => String.eqb label instrument) labels).

(** [mask = [label == instrument for label in labels]]. *)
Definition instrument_mask (labels : list string) (instrument : string)
  : list bool :=
  map (fun label => String.eqb label instrument) labels.

(** The rows collected from [frame_idx] on, as triples: the features of
    the frame, the label of one box, the index of the frame. *)
Fixpoint rows_from {F} (frame_idx : nat) (frames : list (frame_result F))
  : list (F * string * nat) :=
  match frames with
  | [] => []
  | r :: frames' =>
      (map (fun name => (features_np r, py_lower name, frame_idx)) (box_names r)
       ++ rows_from (S frame_idx) frames')%list
  end.

(** Three frames: a grasper and a hook, nothing, a clipper. *)
Definition three_frame_results : list (frame_result string) :=
  [{| box_names := ["Grasper"; "Hook"]; features_np := "features of frame 0" |};
   {| box_names := []; features_np := "features of frame 1" |};
   {| box_names := ["Clipper"]; features_np := "features of frame 2" |}].

(** ** The script around the loader (evaluate_HeiChole.py) *)

(** The paths [ModelLoader.setup_paths] requires, and the two models. *)
Inductive required_path : Type :=
| YoloWeights
| VerbCheckpoint
| DatasetFolder.

Inductive model_kind : Type :=
| YoloModel
| VerbModel.

(** The attributes [setup_paths] sets, as the strings of the paths. *)
Record ModelLoader : Type := {
  yolo_weights : string;
  verb_model_path : string;
  dataset_path : string
}.

(** [p / a] on a [Path] of string [p], for a relative [a]: [p] is a
    resolved path, written without a final separator. *)
Definition path_div (p a : string) : string := p ++ "/" ++ a.

Section Script.
(** The library calls of the script, taken as functions of their
    arguments that return a value or raise an exception of the library:
    [YOLO(path)], [SurgicalVerbRecognition.load_from_checkpoint(path)]
    with the [eval()] on its result, and [verb_model.to(device)] with the
    [eval()] of [HierarchicalEvaluator.__init__]. *)
Context {E yolo verb : Type}.
Variable YOLO : string -> E + yolo.
Variable load_from_checkpoint : string -> E + verb.
Variable to_device : verb -> E + verb.

(** The string of the module's [hierarchical_dir]. *)
Variable hierarchical_dir : string.

(** What can be raised inside [main]: an exception of the loader or of a
    subscript, the [FileNotFoundError] of [setup_paths] with the path it
    names, the [Exception] a model loader raises around its cause, or an
    exception of a library. *)
Inductive raised : Type :=
| Builtin (e : exn)
| PathNotFound (what : required_path) (path : string)
| LoadingFailed (which : model_kind) (cause : raised)
| Library (e : E).

(** One [print] call of the script, or of the loader it calls. *)
Inductive line : Type :=
| Printed (o : output)
| YoloWeightsPath (path : string)
| VerbModelPath (path : string)
| DatasetPath (path : string)
| YoloLoaded
| VerbLoaded
| ErrorDetails (cause : raised)
| TestingGroundTruthLoading (video : string)
| SampleOfLoadedAnnotations
| SampleFrame (frame : Z)
| SampleInstruments (d : dict string Z)
| SampleActions (d : dict string Z)
| ErrorDuringEvaluation (cause : raised).

(** The files, the folders, and what has been printed. *)
Record machine : Type := {
  disk : string -> option file;
  folders : string -> bool;
  console : list line
}.

Inductive outcome (A : Type) : Type :=
| Returned (a : A)
| Raised (r : raised).
Arguments Returned {A} a.
Arguments Raised {A} r.

Definition Script (A : Type) : Type := machine -> outcome A * machine.

Definition sret {A} (a : A) : Script A := fun m => (Returned a, m).

Definition sbind {A B} (s : Script A) (k : A -> Script B) : Script B :=
  fun m =>
    match s m with
    | (Returned a, m') => k a m'
    | (Raised r, m') => (Raised r, m')
    end.

Definition sraise {A} (r : raised) : Script A := fun m => (Raised r, m).

Definition say (l : line) : Script unit :=
  fun m =>
    (Returned tt,
     {| disk := disk m; folders := folders m;
        console := (console m ++ [l])%list |}).

(** [try: body / except Exception as e: handler e]. *)
Definition attempt {A} (body : Script A) (handler : raised -> Script A)
  : Script A :=
  fun m =>
    match body m with
    | (Returned a, m') => (Returned a, m')
    | (Raised r, m') => handler r m'
    end.

(** [path.exists()]: a file or a folder is there. *)
Definition path_exists (path : string) : Script bool :=
  fun m =>
    (Returned match disk m path with
              | Some _ => true
              | None => folders m path
              end, m).

(** A library call. *)
Definition call {A} (r : E + A) : Script A :=
  fun m =>
    (match r with
     | inl e => Raised (Library e)
     | inr a => Returned a
     end, m).

(** A statement of the loader, run on the files of the machine; its lines
    go to the console. *)
Definition run_loader {A} (stmt : M A) : Script A :=
  fun m =>
    let '(r, w) := stmt {| files := disk m; stdout := [] |} in
    (match r with
     | Ok a => Returned a
     | Raise e => Raised (Builtin e)
     end,
     {| disk := files w; folders := folders m;
        console := (console m ++ map Printed (stdout w))%list |}).

Notation "x <- s ;; k" := (sbind s (fun x => k))
  (at level 61, s at next level, right associativity).
Notation "s ;; k" := (sbind s (fun _ => k))
  (at level 61, right associativity).

(** [ModelLoader()]: [__init__] calls [setup_paths], which prints the
    three paths and then checks them in this order. *)
Definition setup_paths : Script ModelLoader :=
  let yolo_weights :=
    path_div (path_div (path_div (path_div hierarchical_dir
      "Instrument-classification-detection") "weights")
      "instrument_detector") "best_v35.pt" in
  let verb_model_path :=
    path_div hierarchical_dir
      "verb_recognition/checkpoints/jumping-tree-47/last.ckpt" in
  let dataset_path := "/data/Bartscht/HeiChole" in
  say (YoloWeightsPath yolo_weights) ;;
  say (VerbModelPath verb_model_path) ;;
  say (DatasetPath dataset_path) ;;
  yolo_there <- path_exists yolo_weights ;;
  if negb yolo_there then sraise (PathNotFound YoloWeights yolo_weights)
  else
    verb_there <- path_exists verb_model_path ;;
    if negb verb_there
    then sraise (PathNotFound VerbCheckpoint verb_model_path)
    else
      dataset_there <- path_exists dataset_path ;;
      if negb dataset_there
      then sraise (PathNotFound DatasetFolder dataset_path)
      else
        sret {| yolo_weights := yolo_weights;
                verb_model_path := verb_model_path;
                dataset_path := dataset_path |}.

Definition load_yolo_model (self : ModelLoader) : Script yolo :=
  attempt
    (model <- call (YOLO (yolo_weights self)) ;;
     say YoloLoaded ;;
     sret model)
    (fun e => say (ErrorDetails e) ;; sraise (LoadingFailed YoloModel e)).

Definition load_verb_model (self : ModelLoader) : Script verb :=
  attempt
    (model <- call (load_from_checkpoint (verb_model_path self)) ;;
     say VerbLoaded ;;
     sret model)
    (fun e => say (ErrorDetails e) ;; sraise (LoadingFailed VerbModel e)).

(** [HierarchicalEvaluator(yolo_model, verb_model, dataset_dir)]. *)
Definition new_evaluator (yolo_model : yolo) (verb_model : verb)
    (dataset_dir : string) : Script HierarchicalEvaluator :=
  moved <- call (to_device verb_model) ;;
  sret {| dataset_dir := dataset_dir |}.

Definition main : Script unit :=
  attempt
    (loader <- setup_paths ;;
     yolo_model <- load_yolo_model loader ;;
     verb_model <- load_verb_model loader ;;
     evaluator <- new_evaluator yolo_model verb_model (dataset_path loader) ;;
     let test_video := "VID01" in
     say (TestingGroundTruthLoading test_video) ;;
     annotations <- run_loader (load_ground_truth evaluator test_video) ;;
     say SampleOfLoadedAnnotations ;;
     sample_frame <-
       run_loader (lift (list_getitem (dict_keys annotations) 0)) ;;
     say (SampleFrame sample_frame) ;;
     let '(e1, a1) := defaultdict_getitem new_frame sample_frame annotations in
     say (SampleInstruments (instruments e1)) ;;
     let '(e2, a2) := defaultdict_getitem new_frame sample_frame a1 in
     say (SampleActions (verbs e2)))
    (fun e => say (ErrorDuringEvaluation e)).

(** The lines of a [setup_paths] that finds its three paths, and of the
    two model loaders after it. *)
Definition ready_lines : list line :=
  [YoloWeightsPath
     (path_div (path_div (path_div (path_div hierarchical_dir
        "Instrument-classification-detection") "weights")
        "instrument_detector") "best_v35.pt");
   VerbModelPath
     (path_div hierarchical_dir
        "verb_recognition/checkpoints/jumping-tree-47/last.ckpt");
   DatasetPath "/data/Bartscht/HeiChole";
   YoloLoaded;
   VerbLoaded;
   TestingGroundTruthLoading "VID01"].

(** Everything [main] needs before it loads the annotations is there: the
    three paths, and the models load and move to the device. *)
Definition ready (m : machine) : Prop :=
  (exists y v v',
      YOLO
        (path_div (path_div (path_div (path_div hierarchical_dir
           "Instrument-classification-detection") "weights")
           "instrument_detector") "best_v35.pt") = inr y /\
      load_from_checkpoint
        (path_div hierarchical_dir
           "verb_recognition/checkpoints/jumping-tree-47/last.ckpt") = inr v /\
      to_device v = inr v') /\
  fst (path_exists
         (path_div (path_div (path_div (path_div hierarchical_dir
            "Instrument-classification-detection") "weights")
            "instrument_detector") "best_v35.pt") m) = Returned true /\
  fst (path_exists
         (path_div hierarchical_dir
            "verb_recognition/checkpoints/jumping-tree-47/last.ckpt") m)
  = Returned true /\
  fst (path_exists "/data/Bartscht/HeiChole" m) = Returned true.
End Script.

Arguments Returned {E A} a.
Arguments Raised {E A} r.

(** Whether a file or a folder is at the path. *)
Definition there {E} (m : @machine E) (path : string) : bool :=
  match disk m path with
  | Some _ => true
  | None => folders m path
  end.

Definition expected_yolo_weights (hierarchical_dir : string) : string :=
  path_div (path_div (path_div (path_div hierarchical_dir
    "Instrument-classification-detection") "weights")
    "instrument_detector") "best_v35.pt".

Definition expected_verb_model_path (hierarchical_dir : string) : string :=
  path_div hierarchical_dir
    "verb_recognition/checkpoints/jumping-tree-47/last.ckpt".

(** The three lines [setup_paths] prints first. *)
Definition path_lines {E} (hierarchical_dir : string) : list (@line E) :=
  [YoloWeightsPath (expected_yolo_weights hierarchical_dir);
   VerbModelPath (expected_verb_model_path hierarchical_dir);
   DatasetPath "/data/Bartscht/HeiChole"].

(** The evaluator [main] builds, and the annotation file it tests. *)
Definition main_evaluator : HierarchicalEvaluator :=
  {| dataset_dir := "/data/Bartscht/HeiChole" |}.

Definition main_json_file : string :=
  "/data/Bartscht/HeiChole/Labels/VID01.json".

(** What [main] prints after the lines of the loader. *)
Definition report_lines {E} (r : result AnnotationIndex) : list (@line E) :=
  match r with
  | Raise e => [ErrorDuringEvaluation (Builtin e)]
  | Ok [] =>
      [SampleOfLoadedAnnotations; ErrorDuringEvaluation (Builtin IndexError)]
  | Ok ((sample_frame, entry) :: _) =>
      [SampleOfLoadedAnnotations;
       SampleFrame sample_frame;
       SampleInstruments (instruments entry);
       SampleActions (verbs entry)]
  end.

(** Example machines: the libraries load whatever they are given; the
    repository is at [/repo]; the weights are there.  On the first machine
    the annotations of VID01 are [two_frames]; on the second they list one
    frame with nothing present; on the third the dataset folder is
    missing. *)
Definition loads_anything {A} (path : A) : string + unit := inr tt.

Definition repo_hierarchical_dir : string :=
  "/repo/models/hierarchical-surgical-workflow".

Definition nothing_present : json :=
  JObj [("frames", JObj [("0", JObj [("instruments", JObj [("grasper", JInt 0)])])])].

Definition workstation_with (annotations : json) (dataset_there : bool)
  : @machine string :=
  {| disk := fun path =>
       if String.eqb path (expected_yolo_weights repo_hierarchical_dir)
       then Some NotJSON
       else if String.eqb path (expected_verb_model_path repo_hierarchical_dir)
       then Some NotJSON
       else if String.eqb path main_json_file
       then Some (Document annotations)
       else None;
     folders := fun path =>
       dataset_there && String.eqb path "/data/Bartscht/HeiChole";
     console := [] |}.

(** Two frames whose keys denote the same number, and a frame that cannot
    be processed followed by one with a malformed key. *)
Definition same_number_items : list (string * json) :=
  [("7", JObj [("instruments", JObj [("grasper", JInt 1)])]);
   ("07", JObj [("instruments", JObj [("hook", JBool true)])])].

Definition same_number : json := JObj [("frames", JObj same_number_items)].

Definition two_defects_items : list (string * json) :=
  [("0", JObj [("instruments", JObj [("grasper", JInt 1)])]);
   ("1", JObj [("instruments", JObj [("hook", JStr "yes")])]);
   ("abc", JObj [])].

Definition two_defects : json := JObj [("frames", JObj two_defects_items)].

Definition two_frames_reversed : json :=
  JObj [("frames", JObj (rev two_frames_items))].

(** A second dataset, one file per example. *)
Definition archive : world :=
  {| files := fun path =>
       if String.eqb path "/data/Bartscht/HeiChole/Labels/VID01.json"
       then Some (Document two_frames)
       else if String.eqb path "/data/Bartscht/HeiChole/Labels/VID11.json"
       then Some (Document two_frames_reversed)
       else if String.eqb path "/data/Bartscht/HeiChole/Labels/VID12.json"
       then Some (Document same_number)
       else if String.eqb path "/data/Bartscht/HeiChole/Labels/VID13.json"
       then Some (Document two_defects)
       else None;
     stdout := [] |}.

(** What every assignment keeps: keys once, names once, no entry without a
    name. *)
Definition kept_by_marks (index : AnnotationIndex) : Prop :=
  NoDup (dict_keys index) /\
  forall n entry,
    dict_get n index = Some entry ->
    (forall side, NoDup (dict_keys (names_of side entry))) /\
    exists side, names_of side entry <> [].

(** * Properties *)

(** ** Dictionaries *)

Section DictFacts.
Context {K V : Type} `{PyKey K}.
Implicit Types (k : K) (v : V) (d : dict K V).

Lemma key_eqb_refl k : key_eqb k k = true.
Proof. apply key_eqb_eq. reflexivity. Qed.

Lemma key_eqb_neq k k' : k <> k' -> key_eqb k k' = false.
Proof.
  intros Hne. destruct (key_eqb k k') eqn:E; [|reflexivity].
  apply key_eqb_eq in E. contradiction.
Qed.

Lemma key_eqb_true k k' : key_eqb k k' = true -> k = k'.
Proof. apply key_eqb_eq. Qed.

Lemma dict_get_setitem_eq k v d : dict_get k (dict_setitem k v d) = Some v.
Proof.
  induction d as [|[k' v'] d IH]; simpl.
  - now rewrite key_eqb_refl.
  - destruct (key_eqb k k') eqn:E; simpl; now rewrite E.
Qed.

Lemma dict_get_setitem_neq k k' v d :
  k <> k' -> dict_get k' (dict_setitem k v d) = dict_get k' d.
Proof.
  intros Hne. induction d as [|[k0 v0] d IH]; simpl.
  - rewrite key_eqb_neq; congruence.
  - destruct (key_eqb k k0) eqn:E; simpl.
    + apply key_eqb_true in E. subst k0.
      rewrite (key_eqb_neq k' k); congruence.
    + now rewrite IH.
Qed.

Lemma dict_keys_setitem k v d k' :
  In k' (dict_keys (dict_setitem k v d)) <-> k' = k \/ In k' (dict_keys d).
Proof.
  unfold dict_keys. induction d as [|[k0 v0] d IH]; simpl.
  - intuition congruence.
  - destruct (key_eqb k k0) eqn:E; simpl.
    + apply key_eqb_true in E. subst k0. intuition congruence.
    + rewrite IH. intuition congruence.
Qed.

Lemma dict_get_None k d : dict_get k d = None <-> ~ In k (dict_keys d).
Proof.
  unfold dict_keys. induction d as [|[k0 v0] d IH]; simpl.
  - intuition.
  - destruct (key_eqb k k0) eqn:E.
    + apply key_eqb_true in E. subst k0. intuition discriminate.
    + rewrite IH. split.
      * intros Hn [Heq|Hin]; [|now apply Hn].
        subst k0. rewrite key_eqb_refl in E. discriminate.
      * intuition.
Qed.

Lemma dict_get_Some_keys k v d : dict_get k d = Some v -> In k (dict_keys d).
Proof.
  unfold dict_keys. induction d as [|[k0 v0] d IH]; simpl; [discriminate|].
  destruct (key_eqb k k0) eqn:E; [|now right; apply IH].
  apply key_eqb_true in E. now left.
Qed.

Lemma dict_keys_get k d : In k (dict_keys d) -> exists v, dict_get k d = Some v.
Proof.
  intros Hin. destruct (dict_get k d) as [v|] eqn:E; [now exists v|].
  apply dict_get_None in E. contradiction.
Qed.

Lemma dict_get_Some_In k v d : dict_get k d = Some v -> In (k, v) d.
Proof.
  induction d as [|[k0 v0] d IH]; simpl; [discriminate|].
  destruct (key_eqb k k0) eqn:E; [|now right; apply IH].
  apply key_eqb_true in E. intros [= ->]. now left; subst.
Qed.

Lemma dict_setitem_new k v d :
  dict_get k d = None -> dict_setitem k v d = (d ++ [(k, v)])%list.
Proof.
  induction d as [|[k0 v0] d IH]; simpl; [reflexivity|].
  destruct (key_eqb k k0); [discriminate|].
  intros Hget. now rewrite IH.
Qed.

Lemma dict_setitem_In k v d k' v' :
  In (k', v') (dict_setitem k v d) -> (k' = k /\ v' = v) \/ In (k', v') d.
Proof.
  induction d as [|[k0 v0] d IH]; simpl.
  - intros [[= <- <-]|[]]. now left.
  - destruct (key_eqb k k0) eqn:E; simpl.
    + apply key_eqb_true in E. subst k0.
      intros [[= <- <-]|Hin]; [now left | now right; right].
    + intros [Heq|Hin]; [now right; left|].
      destruct (IH Hin) as [Hnew|Hold]; [now left | now right; right].
Qed.

(** A subscript on a stored key leaves a [defaultdict] as it is. *)
Lemma defaultdict_getitem_stored fresh k d :
  In k (dict_keys d) -> snd (defaultdict_getitem fresh k d) = d.
Proof.
  intros Hin. unfold defaultdict_getitem.
  destruct (dict_keys_get k d Hin) as [v ->]. reflexivity.
Qed.

(** A subscript on a missing key stores the factory's value, last. *)
Lemma defaultdict_getitem_missing fresh k d :
  ~ In k (dict_keys d) ->
  defaultdict_getitem fresh k d = (fresh, (d ++ [(k, fresh)])%list).
Proof.
  intros Hout. apply dict_get_None in Hout. unfold defaultdict_getitem.
  rewrite Hout. now rewrite dict_setitem_new.
Qed.

Lemma distinct_NoDup (l : list K) : distinct l = true -> NoDup l.
Proof.
  induction l as [|k l IH]; simpl; [constructor|].
  intros Hd. apply andb_true_iff in Hd as [Hk Hl].
  constructor; [|now apply IH].
  intros Hin. apply negb_true_iff in Hk.
  assert (existsb (key_eqb k) l = true); [|congruence].
  apply existsb_exists. exists k. split; [exact Hin | apply key_eqb_refl].
Qed.

(** In a dict every key has one value. *)
Lemma distinct_keys_one_value (items : list (K * V)) k v v' :
  distinct (map fst items) = true ->
  In (k, v) items -> In (k, v') items -> v = v'.
Proof.
  intros Hd. apply distinct_NoDup in Hd.
  induction items as [|[k0 v0] items IH]; simpl; [contradiction|].
  simpl in Hd. inversion Hd as [|? ? Hout Hnd]; subst.
  intros [[= -> ->]|Hin] [[= <-]|Hin'].
  - reflexivity.
  - exfalso. apply Hout. now apply (in_map fst) in Hin'.
  - subst. exfalso. apply Hout. now apply (in_map fst) in Hin.
  - now apply IH.
Qed.
End DictFacts.

(** ** Assignments into the index *)

Lemma lookup_frame_get index n :
  lookup_frame index n =
  match dict_get n index with
  | Some entry => entry
  | None => new_frame
  end.
Proof.
  unfold lookup_frame, defaultdict_getitem.
  destruct (dict_get n index); reflexivity.
Qed.

Lemma apply_mark_get_other index n b name m :
  m <> n -> dict_get m (apply_mark index (n, b, name)) = dict_get m index.
Proof.
  intros Hne. unfold apply_mark, mark_verb, mark_instrument, defaultdict_getitem.
  destruct b, (dict_get n index) eqn:E;
    rewrite ?dict_get_setitem_neq by congruence; reflexivity.
Qed.

(** After an assignment the frame has an entry: the one it had, or a fresh
    one, with the name set to 1 on the side assigned. *)
Lemma apply_mark_get_same index n b name :
  exists entry,
    dict_get n (apply_mark index (n, b, name)) = Some entry /\
    names_of b entry = dict_setitem name 1 (names_of b (lookup_frame index n)) /\
    names_of (negb b) entry = names_of (negb b) (lookup_frame index n).
Proof.
  rewrite lookup_frame_get.
  unfold apply_mark, mark_verb, mark_instrument, defaultdict_getitem.
  destruct b, (dict_get n index) eqn:E;
    rewrite dict_get_setitem_eq; eexists; (split; [reflexivity|]);
    split; reflexivity.
Qed.

Lemma apply_mark_keys index n b name m :
  In m (dict_keys (apply_mark index (n, b, name))) <->
  m = n \/ In m (dict_keys index).
Proof.
  unfold apply_mark, mark_verb, mark_instrument, defaultdict_getitem.
  destruct b, (dict_get n index) eqn:E;
    rewrite ?dict_keys_setitem; tauto.
Qed.

Lemma apply_mark_names index n b name m b' nm :
  In nm (dict_keys (names_of b' (lookup_frame (apply_mark index (n, b, name)) m)))
  <->
  In nm (dict_keys (names_of b' (lookup_frame index m))) \/
  (m, b', nm) = (n, b, name).
Proof.
  destruct (Z.eq_dec m n) as [->|Hne].
  - destruct (apply_mark_get_same index n b name) as (entry & Hget & Hset & Hkeep).
    rewrite (lookup_frame_get (apply_mark _ _)), Hget.
    destruct (Bool.bool_dec b' b) as [->|Hb].
    + rewrite Hset, dict_keys_setitem. split.
      * intros [->|Hin]; [now right | now left].
      * intros [Hin|[= ->]]; [now right | now left].
    + assert (b' = negb b) as -> by (destruct b, b'; simpl; congruence).
      rewrite Hkeep. split; [now left|].
      intros [Hin|[= Hb' _]]; [exact Hin|]. now destruct b.
  - rewrite !lookup_frame_get, apply_mark_get_other by exact Hne.
    split; [now left|]. intros [Hin|[= -> _ _]]; [exact Hin | contradiction].
Qed.

Lemma all_ones_empty : all_ones [].
Proof. intros n entry is_verb name x Hget. discriminate. Qed.

Lemma apply_mark_all_ones index mk : all_ones index -> all_ones (apply_mark index mk).
Proof.
  destruct mk as [[n b] name]. intros Hone m entry is_verb nm x Hget Hin.
  assert (Hold : forall side, In (nm, x) (names_of side (lookup_frame index n)) -> x = 1).
  { intros side. rewrite lookup_frame_get.
    destruct (dict_get n index) as [e0|] eqn:E.
    - now apply (Hone n e0 side nm x).
    - now destruct side. }
  destruct (Z.eq_dec m n) as [->|Hne].
  - destruct (apply_mark_get_same index n b name) as (e & Hget' & Hset & Hkeep).
    assert (entry = e) as -> by congruence.
    destruct (Bool.bool_dec is_verb b) as [->|Hb].
    + rewrite Hset in Hin. apply dict_setitem_In in Hin as [[_ ->]|Hin];
        [reflexivity | now apply (Hold b)].
    + assert (is_verb = negb b) as -> by (destruct b, is_verb; simpl; congruence).
      rewrite Hkeep in Hin. now apply (Hold (negb b)).
  - rewrite apply_mark_get_other in Hget by exact Hne.
    now apply (Hone m entry is_verb nm x).
Qed.

(** The index after a sequence of assignments. *)
Lemma marks_keys marks : forall index m,
  In m (dict_keys (fold_left apply_mark marks index)) <->
  In m (dict_keys index) \/ exists b name, In (m, b, name) marks.
Proof.
  induction marks as [|[[n b] name] marks IH]; intros index m; cbn [fold_left In].
  - split; [now left|]. intros [Hin|(b & name & [])]. exact Hin.
  - rewrite IH, apply_mark_keys. split.
    + intros [[->|Hin]|(b' & nm & Hin)].
      * right. exists b, name. now left.
      * now left.
      * right. exists b', nm. now right.
    + intros [Hin|(b' & nm & [[= <- <- <-]|Hin])].
      * left. now right.
      * left. now left.
      * right. now exists b', nm.
Qed.

Lemma marks_names marks : forall index m b nm,
  In nm (dict_keys (names_of b (lookup_frame (fold_left apply_mark marks index) m)))
  <->
  In nm (dict_keys (names_of b (lookup_frame index m))) \/ In (m, b, nm) marks.
Proof.
  induction marks as [|[[n b0] name] marks IH]; intros index m b nm;
    cbn [fold_left In].
  - tauto.
  - rewrite IH, apply_mark_names. intuition congruence.
Qed.

Lemma marks_all_ones marks : forall index,
  all_ones index -> all_ones (fold_left apply_mark marks index).
Proof.
  induction marks as [|mk marks IH]; intros index Hone; cbn [fold_left];
    [exact Hone|].
  apply IH. now apply apply_mark_all_ones.
Qed.

(** ** The loops *)

Lemma instrument_step_eq n st it :
  instrument_step n st it =
  rbind (py_gt_zero (snd it))
    (fun p : bool =>
       if p then Ok (apply_mark (fst st) (n, false, fst it), true) else Ok st).
Proof. destruct it. reflexivity. Qed.

Lemma action_step_eq n st it :
  action_step n st it =
  rbind (py_gt_zero (snd it))
    (fun p : bool =>
       if p then Ok (apply_mark (fst st) (n, true, fst it), true) else Ok st).
Proof. destruct it. reflexivity. Qed.

Section PresenceLoop.
Variables (n : Z) (b : bool).
Variable step :
  AnnotationIndex * bool -> string * json -> result (AnnotationIndex * bool).
Hypothesis step_eq : forall st it,
  step st it =
  rbind (py_gt_zero (snd it))
    (fun p : bool =>
       if p then Ok (apply_mark (fst st) (n, b, fst it), true) else Ok st).

(** A loop over a sub-map that ends normally has assigned exactly the
    names whose value is above zero. *)
Lemma presence_loop_marks items : forall st st',
  for_each step items st = Ok st' ->
  exists marks,
    fst st' = fold_left apply_mark marks (fst st) /\
    forall mk, In mk marks <->
      exists nm v, mk = (n, b, nm) /\ In (nm, v) items /\ py_gt_zero v = Ok true.
Proof.
  induction items as [|[nm0 v0] items IH]; intros st st'; cbn [for_each].
  - intros [= <-]. exists []. split; [reflexivity|].
    intros mk. split; [intros [] | intros (nm & v & _ & [] & _)].
  - rewrite step_eq. cbn [fst snd].
    destruct (py_gt_zero v0) as [[|]|e] eqn:E; cbn [rbind]; [| |discriminate];
      intros Hloop; apply IH in Hloop as (marks & Hfst & Hmarks).
    + exists ((n, b, nm0) :: marks). split; [exact Hfst|].
      intros mk. cbn [In]. rewrite Hmarks. split.
      * intros [<-|(nm & v & -> & Hin & Hv)].
        -- exists nm0, v0. auto.
        -- exists nm, v. auto.
      * intros (nm & v & -> & [[= -> ->]|Hin] & Hv); [now left|].
        right. now exists nm, v.
    + exists marks. split; [exact Hfst|].
      intros mk. rewrite Hmarks. split.
      * intros (nm & v & -> & Hin & Hv). exists nm, v. cbn [In]. auto.
      * intros (nm & v & -> & [[= -> ->]|Hin] & Hv); [congruence|].
        now exists nm, v.
Qed.

(** On numbers the comparison does not raise, so the loop ends normally. *)
Lemma presence_loop_total items :
  forallb (fun it => is_number (snd it)) items = true ->
  forall st, exists st', for_each step items st = Ok st'.
Proof.
  induction items as [|[nm0 v0] items IH]; cbn [for_each forallb snd].
  - intros _ st. now exists st.
  - intros Hnum st. apply andb_true_iff in Hnum as [Hv Hrest].
    rewrite step_eq. cbn [fst snd].
    destruct v0 as [| |z|f| | |]; try discriminate; cbn [py_gt_zero rbind].
    + destruct (0 <? z); now apply IH.
    + destruct (SFltb (S754_zero false) f); now apply IH.
Qed.
End PresenceLoop.


(** One frame processed without exception: its key is a frame number, and
    the assignments made are those of its names above zero. *)
Lemma frame_step_marks st k fd st' :
  frame_step st (k, fd) = Ok st' ->
  exists n marks,
    py_int k = Ok n /\
    frame_annotations st' = fold_left apply_mark marks (frame_annotations st) /\
    forall mk, In mk marks <->
      exists b nm, mk = (n, b, nm) /\ present_in fd (sub_key b) nm.
Proof.
  unfold frame_step.
  destruct (py_int k) as [n|] eqn:Hk; cbn [rbind]; [|discriminate].
  destruct (py_get fd "instruments" (JObj [])) as [instrs|] eqn:Hi;
    cbn [rbind]; [|discriminate].
  destruct (py_items instrs) as [iitems|] eqn:Hii; cbn [rbind]; [|discriminate].
  destruct (for_each (instrument_step n) iitems (frame_annotations st, false))
    as [wi|] eqn:Hloop1; cbn [rbind]; [|discriminate].
  destruct (py_get fd "actions" (JObj [])) as [acts|] eqn:Ha;
    cbn [rbind]; [|discriminate].
  destruct (py_items acts) as [aitems|] eqn:Hai; cbn [rbind]; [|discriminate].
  destruct (for_each (action_step n) aitems (fst wi, false))
    as [wa|] eqn:Hloop2; cbn [rbind]; [|discriminate].
  intros [= <-]. cbn [frame_annotations].
  apply (presence_loop_marks n false _ (instrument_step_eq n)) in Hloop1
    as (marks1 & Hfst1 & Hmarks1).
  apply (presence_loop_marks n true _ (action_step_eq n)) in Hloop2
    as (marks2 & Hfst2 & Hmarks2).
  cbn [fst] in Hfst1, Hfst2.
  exists n, (marks1 ++ marks2)%list. split; [reflexivity|]. split.
  - rewrite fold_left_app. congruence.
  - intros mk. rewrite in_app_iff, Hmarks1, Hmarks2. split.
    + intros [(nm & v & -> & Hin & Hv)|(nm & v & -> & Hin & Hv)].
      * exists false, nm. split; [reflexivity|]. now exists instrs, iitems, v.
      * exists true, nm. split; [reflexivity|]. now exists acts, aitems, v.
    + intros (b & nm & -> & sub & items & v & Hsub & Hitems & Hin & Hv).
      destruct b; cbn [sub_key] in Hsub; [right|left]; exists nm, v;
        (split; [reflexivity|]); split; try exact Hv; congruence.
Qed.

(** The frame loop ended normally: every key is a frame number, and the
    assignments made are those of the names above zero, frame by frame. *)
Lemma frames_loop_marks frames : forall st st',
  for_each frame_step frames st = Ok st' ->
  (forall k fd, In (k, fd) frames -> exists n, py_int k = Ok n) /\
  exists marks,
    frame_annotations st' = fold_left apply_mark marks (frame_annotations st) /\
    forall m b nm, In (m, b, nm) marks <->
      exists k fd,
        In (k, fd) frames /\ py_int k = Ok m /\ present_in fd (sub_key b) nm.
Proof.
  induction frames as [|[k0 fd0] frames IH]; intros st st'; cbn [for_each].
  - intros [= <-]. split; [intros k fd []|].
    exists []. split; [reflexivity|].
    intros m b nm. split; [intros [] | intros (k & fd & [] & _)].
  - destruct (frame_step st (k0, fd0)) as [st1|] eqn:Hstep; cbn [rbind];
      [|discriminate].
    intros Hloop. apply IH in Hloop as (Hparse & marks & Hidx & Hmarks).
    apply frame_step_marks in Hstep as (n0 & marks0 & Hk0 & Hidx0 & Hmarks0).
    split.
    + intros k fd [[= <- <-]|Hin]; [now exists n0 | now apply (Hparse k fd)].
    + exists (marks0 ++ marks)%list. split.
      * rewrite fold_left_app. congruence.
      * intros m b nm. rewrite in_app_iff, Hmarks0, Hmarks. cbn [In]. split.
        -- intros [(b' & nm' & [= -> -> ->] & Hpres)|(k & fd & Hin & Hk & Hpres)].
           ++ exists k0, fd0. auto.
           ++ exists k, fd. auto.
        -- intros (k & fd & [[= -> ->]|Hin] & Hk & Hpres).
           ++ left. exists b, nm. split; [congruence | exact Hpres].
           ++ right. now exists k, fd.
Qed.

(** A valid frame is processed without exception. *)
Lemma frame_step_total st k fd :
  parses k = true -> valid_frame fd = true ->
  exists st', frame_step st (k, fd) = Ok st'.
Proof.
  unfold parses, valid_frame, frame_step.
  destruct (py_int k) as [n|]; [|discriminate]. intros _.
  destruct (py_get fd "instruments" (JObj [])) as [instrs|]; [|discriminate].
  destruct (py_get fd "actions" (JObj [])) as [acts|]; [|discriminate].
  intros Hvalid. apply andb_true_iff in Hvalid as [Hinstrs Hacts].
  destruct instrs as [| | | | | |iitems]; try discriminate.
  destruct acts as [| | | | | |aitems]; try discriminate.
  cbn [valid_presence_map] in Hinstrs, Hacts.
  apply andb_true_iff in Hinstrs as [_ Hinum].
  apply andb_true_iff in Hacts as [_ Hanum].
  cbn [rbind py_items].
  destruct (presence_loop_total n false _ (instrument_step_eq n) iitems Hinum
              (frame_annotations st, false)) as [wi ->].
  cbn [rbind].
  destruct (presence_loop_total n true _ (action_step_eq n) aitems Hanum
              (fst wi, false)) as [wa ->].
  cbn [rbind]. eexists. reflexivity.
Qed.

Lemma frames_loop_total frames :
  forallb (fun it => parses (fst it) && valid_frame (snd it)) frames = true ->
  forall st, exists st', for_each frame_step frames st = Ok st'.
Proof.
  induction frames as [|[k fd] frames IH]; cbn [for_each forallb fst snd].
  - intros _ st. now exists st.
  - intros Hall st. apply andb_true_iff in Hall as [Hhere Hrest].
    apply andb_true_iff in Hhere as [Hk Hfd].
    destruct (frame_step_total st k fd Hk Hfd) as [st1 ->]. cbn [rbind].
    now apply IH.
Qed.



(** ** The index of a document *)

Lemma build_index_frames data frames :
  frames_of data = Some frames ->
  build_index data =
  match frames with
  | [] => Raise IndexError
  | _ :: _ =>
      rbind (for_each frame_step frames loop_start)
        (fun st => Ok (frame_annotations st))
  end.
Proof.
  unfold frames_of, build_index, py_get.
  destruct data as [| | | | | |top]; try discriminate.
  destruct (dict_get "frames" top) as [[| | | | | |fs]|]; try discriminate.
  intros [= ->]. cbn [rbind py_len py_items].
  destruct frames; reflexivity.
Qed.

Lemma build_index_inv data index :
  build_index data = Ok index ->
  exists frames st,
    frames_of data = Some frames /\ frames <> [] /\
    for_each frame_step frames loop_start = Ok st /\
    index = frame_annotations st.
Proof.
  unfold build_index, py_get, frames_of.
  destruct data as [| | | | | |top]; try discriminate.
  destruct (dict_get "frames" top) as [fs|]; cbn [rbind py_len];
    [|discriminate].
  destruct fs as [| | | |s|l|frames]; try discriminate;
    cbn [rbind py_len py_items]; try discriminate.
  destruct frames as [|f frames]; [discriminate|].
  cbn [list_getitem nth_error rbind].
  destruct (for_each frame_step (f :: frames) loop_start) as [st|] eqn:Hloop;
    cbn [rbind]; [|discriminate].
  intros [= <-]. exists (f :: frames), st. repeat split; congruence.
Qed.

(** What a returned index holds, in terms of the document. *)
Lemma build_index_spec data index :
  build_index data = Ok index ->
  exists frames,
    frames_of data = Some frames /\ frames <> [] /\
    all_ones index /\
    (forall m, In m (dict_keys index) <->
       exists k fd, In (k, fd) frames /\ py_int k = Ok m /\ has_positive fd) /\
    (forall m b nm, In nm (dict_keys (names_of b (lookup_frame index m))) <->
       exists k fd,
         In (k, fd) frames /\ py_int k = Ok m /\ present_in fd (sub_key b) nm).
Proof.
  intros Hbuild.
  apply build_index_inv in Hbuild as (frames & st & Hframes & Hne & Hloop & ->).
  apply frames_loop_marks in Hloop as (_ & marks & Hidx & Hmarks).
  cbn [frame_annotations loop_start] in Hidx.
  exists frames. split; [exact Hframes|]. split; [exact Hne|].
  rewrite Hidx. split; [|split].
  - apply marks_all_ones, all_ones_empty.
  - intros m. rewrite marks_keys. split.
    + intros [[]|(b & nm & Hin)].
      apply Hmarks in Hin as (k & fd & Hin & Hk & Hpres).
      exists k, fd. split; [exact Hin|]. split; [exact Hk|].
      exists nm. destruct b; [now right | now left].
    + intros (k & fd & Hin & Hk & nm & [Hpres|Hpres]); right.
      * exists false, nm. apply Hmarks. now exists k, fd.
      * exists true, nm. apply Hmarks. now exists k, fd.
  - intros m b nm. rewrite marks_names, Hmarks. split.
    + intros [Hin|Hex]; [|exact Hex]. now destruct b.
    + intros Hex. now right.
Qed.

(** A valid document with at least one frame has an index. *)
Lemma build_index_valid data frames :
  valid_document data = true ->
  frames_of data = Some frames -> frames <> [] ->
  exists index, build_index data = Ok index.
Proof.
  unfold valid_document. intros Hvalid Hframes Hne.
  rewrite Hframes in Hvalid. apply andb_true_iff in Hvalid as [Hall _].
  rewrite (build_index_frames data frames Hframes).
  destruct frames as [|f frames]; [contradiction|].
  destruct (frames_loop_total (f :: frames) Hall loop_start) as [st ->].
  cbn [rbind]. eexists. reflexivity.
Qed.

(** In a valid document a frame number names one frame. *)
Lemma distinct_frame_numbers_one frames k fd k' fd' n :
  distinct_frame_numbers frames = true ->
  In (k, fd) frames -> In (k', fd') frames ->
  py_int k = Ok n -> py_int k' = Ok n ->
  (k, fd) = (k', fd').
Proof.
  intros Hd Hin Hin' Hk Hk'.
  assert (Hsame : forall a b, py_int a = Ok n -> py_int b = Ok n ->
                              same_frame_number a b = true).
  { intros a b Ha Hb. unfold same_frame_number. rewrite Ha, Hb. apply Z.eqb_refl. }
  induction frames as [|[k0 fd0] frames IH]; cbn [In] in *; [contradiction|].
  cbn [distinct_frame_numbers] in Hd. apply andb_true_iff in Hd as [Hk0 Hrest].
  apply negb_true_iff in Hk0.
  assert (Hclash : forall a b fb,
            k0 = a -> In (b, fb) frames ->
            py_int a = Ok n -> py_int b = Ok n -> False).
  { intros a b fb -> Hb Ha Hb'.
    assert (existsb (fun it => same_frame_number a (fst it)) frames = true);
      [|congruence].
    apply existsb_exists. exists (b, fb). split; [exact Hb | now apply Hsame]. }
  destruct Hin as [Heq|Hin], Hin' as [Heq'|Hin'].
  - congruence.
  - exfalso. injection Heq as Heq _. now apply (Hclash k k' fd' Heq Hin').
  - exfalso. injection Heq' as Heq' _. now apply (Hclash k' k fd Heq' Hin).
  - now apply IH.
Qed.

(** ** Statements *)

Lemma run_fst {A} (m : M A) (w : world) (r : result A) :
  fst (m w) = r -> exists w', m w = (r, w').
Proof. destruct (m w) as [r' w']. intros <-. now exists w'. Qed.

Create HintDb reads.

Lemma reads_ret {A} (a : A) : reads_files_only (ret a).
Proof.
  intros w. split; [reflexivity|]. split; [|intros w' _; reflexivity].
  exists []. cbn. now rewrite app_nil_r.
Qed.

Lemma reads_raise {A} (e : exn) : reads_files_only (@raise A e).
Proof.
  intros w. split; [reflexivity|]. split; [|intros w' _; reflexivity].
  exists []. cbn. now rewrite app_nil_r.
Qed.

Lemma reads_lift {A} (r : result A) : reads_files_only (lift r).
Proof.
  intros w. split; [reflexivity|]. split; [|intros w' _; reflexivity].
  exists []. cbn. now rewrite app_nil_r.
Qed.

Lemma reads_print o : reads_files_only (print o).
Proof.
  intros w. split; [reflexivity|]. split; [|intros w' _; reflexivity].
  now exists [o].
Qed.

Lemma reads_open_json_load path : reads_files_only (open_json_load path).
Proof.
  intros w. unfold open_json_load. split; [|split].
  - destruct (files w path) as [[|data]|]; reflexivity.
  - exists []. rewrite app_nil_r.
    destruct (files w path) as [[|data]|]; reflexivity.
  - intros w' ->. destruct (files w path) as [[|data]|]; reflexivity.
Qed.

Lemma reads_bind {A B} (m : M A) (k : A -> M B) :
  reads_files_only m -> (forall a, reads_files_only (k a)) ->
  reads_files_only (bind m k).
Proof.
  intros Hm Hk w. unfold bind.
  destruct (Hm w) as (Hfiles & [out Hout] & Hres). split; [|split].
  - destruct (m w) as [[a|e] w1]; cbn [snd] in *; [|exact Hfiles].
    destruct (Hk a w1) as (Hfiles1 & _ & _). congruence.
  - destruct (m w) as [[a|e] w1]; cbn [snd] in *; [|now exists out].
    destruct (Hk a w1) as (_ & [out1 Hout1] & _).
    exists (out ++ out1)%list. rewrite Hout1, Hout. now rewrite app_assoc.
  - intros w' Hw'. specialize (Hres w' Hw').
    destruct (Hm w') as (Hfiles' & _ & _).
    destruct (m w) as [r w1], (m w') as [r' w1']; cbn [fst snd] in *.
    subst r'. destruct r as [a|e]; [|reflexivity].
    destruct (Hk a w1) as (_ & _ & Hres1). apply Hres1. congruence.
Qed.

Lemma reads_try_except {A} (body : M A) (handler : exn -> M A) :
  reads_files_only body -> (forall e, reads_files_only (handler e)) ->
  reads_files_only (try_except body handler).
Proof.
  intros Hm Hk w. unfold try_except.
  destruct (Hm w) as (Hfiles & [out Hout] & Hres). split; [|split].
  - destruct (body w) as [[a|e] w1]; cbn [snd] in *; [exact Hfiles|].
    destruct (Hk e w1) as (Hfiles1 & _ & _). congruence.
  - destruct (body w) as [[a|e] w1]; cbn [snd] in *; [now exists out|].
    destruct (Hk e w1) as (_ & [out1 Hout1] & _).
    exists (out ++ out1)%list. rewrite Hout1, Hout. now rewrite app_assoc.
  - intros w' Hw'. specialize (Hres w' Hw').
    destruct (Hm w') as (Hfiles' & _ & _).
    destruct (body w) as [r w1], (body w') as [r' w1']; cbn [fst snd] in *.
    subst r'. destruct r as [a|e]; [reflexivity|].
    destruct (Hk e w1) as (_ & _ & Hres1). apply Hres1. congruence.
Qed.

#[local] Hint Resolve reads_ret reads_raise reads_lift reads_print
  reads_open_json_load : reads.

Ltac reads_step :=
  first [ apply reads_bind; [|intros ?]
        | apply reads_try_except; [|intros ?]
        | solve [auto with reads] ].

Lemma reads_print_samples sample_frames : forall index,
  reads_files_only (print_samples sample_frames index).
Proof.
  induction sample_frames as [|k ks IH]; intros index; cbn [print_samples].
  - apply reads_ret.
  - apply reads_bind; [apply reads_print|]. intros _.
    destruct (defaultdict_getitem new_frame k index) as [e1 fa1].
    apply reads_bind; [apply reads_print|]. intros _.
    destruct (defaultdict_getitem new_frame k fa1) as [e2 fa2].
    apply reads_bind; [apply reads_print|]. intros _. apply IH.
Qed.

(** A call reads the files and prints; what it returns or raises depends
    on the files alone. *)
Lemma reads_load_ground_truth self video :
  reads_files_only (load_ground_truth self video).
Proof.
  unfold load_ground_truth.
  repeat reads_step. apply reads_print_samples.
Qed.

(** The sample loop subscripts stored frames only, and leaves the index as
    it is. *)
Lemma print_samples_stored sample_frames : forall index w,
  (forall k, In k sample_frames -> In k (dict_keys index)) ->
  fst (print_samples sample_frames index w) = Ok index.
Proof.
  induction sample_frames as [|k ks IH]; intros index w Hstored;
    cbn [print_samples]; [reflexivity|].
  assert (Hk : In k (dict_keys index)) by (apply Hstored; now left).
  destruct (dict_keys_get k index Hk) as [entry Hget].
  unfold defaultdict_getitem, bind, print. rewrite Hget. cbn.
  rewrite Hget. cbn. apply IH.
  intros k' Hin. apply Hstored. now right.
Qed.

Lemma firstn_In {A} (n : nat) (l : list A) (a : A) :
  In a (firstn n l) -> In a l.
Proof.
  revert l. induction n as [|n IH]; intros [|b l]; cbn [firstn In]; try tauto.
  intros [->|Hin]; [now left | right; now apply IH].
Qed.

(** What a call returns or raises. *)
Lemma load_ground_truth_result self video w :
  fst (load_ground_truth self video w) =
  match files w (json_file_of self video) with
  | None => Raise FileNotFoundError
  | Some NotJSON => Raise JSONDecodeError
  | Some (Document data) => build_index data
  end.
Proof.
  unfold load_ground_truth, try_except, bind, print, open_json_load, lift, raise.
  cbn [files stdout].
  destruct (files w (json_file_of self video)) as [[|data]|]; try reflexivity.
  unfold build_index.
  destruct (py_get data "frames" (JObj [])) as [frames|]; [|reflexivity].
  cbn [rbind].
  destruct (py_len frames) as [total|]; [|reflexivity]. cbn [rbind].
  destruct (py_items frames) as [frame_items|]; [|reflexivity]. cbn [rbind].
  destruct (list_getitem frame_items 0) as [first_frame|]; [|reflexivity].
  cbn [rbind].
  destruct (for_each frame_step frame_items loop_start) as [st|]; [|reflexivity].
  cbn [rbind].
  match goal with
  | |- context [print_samples ?ks ?idx ?w0] =>
      pose proof (print_samples_stored ks idx w0) as Hsamples;
      destruct (print_samples ks idx w0) as [r w1]
  end.
  cbn [fst] in Hsamples. rewrite Hsamples; [reflexivity|].
  intros k. apply firstn_In.
Qed.

Lemma load_ground_truth_document self video w data :
  files w (json_file_of self video) = Some (Document data) ->
  fst (load_ground_truth self video w) = build_index data.
Proof. intros Hfile. now rewrite load_ground_truth_result, Hfile. Qed.

(** On a valid document with at least one frame, the call returns. *)
Lemma load_ground_truth_valid self video w data frames :
  files w (json_file_of self video) = Some (Document data) ->
  valid_document data = true ->
  frames_of data = Some frames -> frames <> [] ->
  exists index w',
    load_ground_truth self video w = (Ok index, w') /\
    build_index data = Ok index.
Proof.
  intros Hfile Hvalid Hframes Hne.
  destruct (build_index_valid data frames Hvalid Hframes Hne) as [index Hbuild].
  destruct (run_fst (load_ground_truth self video) w (Ok index)) as [w' Hrun].
  - now rewrite (load_ground_truth_document self video w data Hfile).
  - now exists index, w'.
Qed.

Lemma valid_document_frame data frames k fd :
  valid_document data = true -> frames_of data = Some frames ->
  In (k, fd) frames ->
  parses k = true /\ valid_frame fd = true /\
  distinct_frame_numbers frames = true.
Proof.
  unfold valid_document. intros Hvalid Hframes Hin. rewrite Hframes in Hvalid.
  apply andb_true_iff in Hvalid as [Hall Hdistinct].
  rewrite forallb_forall in Hall. specialize (Hall (k, fd) Hin).
  apply andb_true_iff in Hall as [Hk Hfd]. auto.
Qed.

Lemma set_of_lookup index n :
  instrument_set index n = dict_keys (names_of false (lookup_frame index n)) /\
  verb_set index n = dict_keys (names_of true (lookup_frame index n)).
Proof.
  unfold instrument_set, verb_set. rewrite lookup_frame_get.
  destruct (dict_get n index); split; reflexivity.
Qed.

(** In a valid frame, a name of a sub-map is above zero exactly when the
    frame has it present. *)
Lemma present_in_valid fd is_verb items name v :
  valid_frame fd = true ->
  py_get fd (sub_key is_verb) (JObj []) = Ok (JObj items) ->
  In (name, v) items ->
  present_in fd (sub_key is_verb) name <-> py_gt_zero v = Ok true.
Proof.
  intros Hvalid Hsub Hin. split.
  - intros (sub & items' & v' & Hsub' & Hitems & Hin' & Hv).
    assert (sub = JObj items) as -> by congruence.
    injection Hitems as <-.
    assert (Hdistinct : distinct (map fst items) = true).
    { unfold valid_frame in Hvalid.
      destruct (py_get fd "instruments" (JObj [])) as [instrs|] eqn:Hi;
        [|discriminate].
      destruct (py_get fd "actions" (JObj [])) as [acts|] eqn:Ha;
        [|discriminate].
      apply andb_true_iff in Hvalid as [Hinstrs Hacts].
      destruct is_verb; cbn [sub_key] in Hsub.
      - assert (acts = JObj items) as -> by congruence.
        now apply andb_true_iff in Hacts as [Hd _].
      - assert (instrs = JObj items) as -> by congruence.
        now apply andb_true_iff in Hinstrs as [Hd _]. }
    now rewrite (distinct_keys_one_value items name v v' Hdistinct Hin Hin').
  - intros Hv. now exists (JObj items), items, v.
Qed.

(** ** Which documents get through the loops *)

Lemma py_gt_zero_ordered v :
  is_ordered v = true <-> exists b, py_gt_zero v = Ok b.
Proof.
  destruct v; cbn; split; intros H;
    try discriminate; try (destruct H; discriminate);
    try reflexivity; eexists; reflexivity.
Qed.

Lemma py_gt_zero_raises v e : py_gt_zero v = Raise e -> e = TypeError.
Proof. destruct v; cbn; congruence. Qed.

Section PresenceLoopOutcome.
Variables (n : Z) (b : bool).
Variable step :
  AnnotationIndex * bool -> string * json -> result (AnnotationIndex * bool).
Hypothesis step_eq : forall st it,
  step st it =
  rbind (py_gt_zero (snd it))
    (fun p : bool =>
       if p then Ok (apply_mark (fst st) (n, b, fst it), true) else Ok st).

(** The loop over a sub-map ends normally exactly on ordered values. *)
Lemma presence_loop_Ok_iff items : forall st,
  (exists st', for_each step items st = Ok st') <->
  forallb (fun it => is_ordered (snd it)) items = true.
Proof.
  induction items as [|[nm v] items IH]; intros st; cbn [for_each forallb snd].
  - split; [reflexivity | intros _; now exists st].
  - rewrite step_eq. cbn [fst snd]. rewrite andb_true_iff.
    destruct (py_gt_zero v) as [p|e] eqn:E; cbn [rbind].
    + assert (Hv : is_ordered v = true) by (apply py_gt_zero_ordered; eauto).
      destruct p; cbn [rbind]; rewrite IH; tauto.
    + split; [intros [st' [=]]|].
      intros [Hv _]. apply py_gt_zero_ordered in Hv as [p Hp]. congruence.
Qed.

(** Its flag tells whether some value was above zero. *)
Lemma presence_loop_flag items : forall st st',
  for_each step items st = Ok st' ->
  snd st' = snd st || existsb (fun it => above_zero (snd it)) items.
Proof.
  induction items as [|[nm v] items IH]; intros st st';
    cbn [for_each existsb snd].
  - intros [= <-]. now rewrite orb_false_r.
  - rewrite step_eq. cbn [fst snd]. unfold above_zero at 1.
    destruct (py_gt_zero v) as [[|]|e]; cbn [rbind]; [| |discriminate];
      intros Hloop; apply IH in Hloop; rewrite Hloop; cbn [snd orb].
    + now rewrite orb_true_r.
    + reflexivity.
Qed.

(** What it raises does not depend on the index built so far. *)
Lemma presence_loop_Raise items : forall st e,
  for_each step items st = Raise e ->
  forall st2, for_each step items st2 = Raise e.
Proof.
  induction items as [|[nm v] items IH]; intros st e; cbn [for_each];
    [discriminate|].
  rewrite step_eq. intros Hloop st2. rewrite step_eq. cbn [fst snd] in *.
  destruct (py_gt_zero v) as [[|]|e0]; cbn [rbind] in *;
    [now apply (IH _ e Hloop) | now apply (IH _ e Hloop) | exact Hloop].
Qed.
End PresenceLoopOutcome.

Lemma has_present_spec frame_data key :
  has_present frame_data key = true <-> exists name, present_in frame_data key name.
Proof.
  unfold has_present, present_in. split.
  - destruct (py_get frame_data key (JObj [])) as [[| | | | | |items]|];
      try discriminate.
    intros Hex. apply existsb_exists in Hex as [[name v] [Hin Hv]].
    unfold above_zero in Hv. cbn [snd] in Hv.
    destruct (py_gt_zero v) as [[|]|] eqn:E; try discriminate.
    now exists name, (JObj items), items, v.
  - intros (name & sub & items & v & -> & Hitems & Hin & Hv).
    destruct sub; try discriminate. injection Hitems as ->.
    apply existsb_exists. exists (name, v). split; [exact Hin|].
    unfold above_zero. cbn [snd]. now rewrite Hv.
Qed.

(** One frame: when the body of the frame loop ends normally, and what it
    does to the counters. *)
Lemma frame_step_Ok_iff st k fd :
  (exists st', frame_step st (k, fd) = Ok st') <->
  parses k && readable_frame fd = true.
Proof.
  unfold frame_step, parses, readable_frame.
  destruct (py_int k) as [n|]; cbn [rbind andb];
    [|split; [intros [st' [=]] | discriminate]].
  destruct (py_get fd "instruments" (JObj [])) as [instrs|]; cbn [rbind];
    [|split; [intros [st' [=]] | discriminate]].
  destruct (py_get fd "actions" (JObj [])) as [acts|] eqn:Ha.
  2:{ split; [|discriminate]. intros [st' Hst].
      destruct (py_items instrs); cbn [rbind] in Hst; [|discriminate].
      destruct (for_each _ _ _); cbn [rbind] in Hst; discriminate. }
  rewrite andb_true_iff.
  destruct instrs as [| | | | | |iitems];
    try solve [split; [intros [st' [=]] | intros [[=] _]]].
  cbn [py_items rbind readable_presence_map].
  rewrite <- (presence_loop_Ok_iff n false _ (instrument_step_eq n) iitems
                (frame_annotations st, false)).
  destruct (for_each (instrument_step n) iitems (frame_annotations st, false))
    as [wi|e]; cbn [rbind].
  2:{ split; [intros [st' [=]] | intros [[wi [=]] _]]. }
  destruct acts as [| | | | | |aitems];
    try solve [split; [intros [st' [=]] | intros [_ [=]]]].
  cbn [py_items rbind readable_presence_map].
  rewrite <- (presence_loop_Ok_iff n true _ (action_step_eq n) aitems
                (fst wi, false)).
  destruct (for_each (action_step n) aitems (fst wi, false)) as [wa|e];
    cbn [rbind].
  - split; [intros _; split; eexists; reflexivity | intros _; eexists; reflexivity].
  - split; [intros [st' [=]] | intros [_ [wa [=]]]].
Qed.

Lemma frame_step_counters st k fd st' :
  frame_step st (k, fd) = Ok st' ->
  processed_frames st' = S (processed_frames st) /\
  frames_with_instruments st' =
    (frames_with_instruments st +
     if has_present fd "instruments" then 1 else 0)%nat /\
  frames_with_actions st' =
    (frames_with_actions st + if has_present fd "actions" then 1 else 0)%nat.
Proof.
  unfold frame_step, has_present.
  destruct (py_int k) as [n|]; cbn [rbind]; [|discriminate].
  destruct (py_get fd "instruments" (JObj [])) as [instrs|]; cbn [rbind];
    [|discriminate].
  destruct instrs as [| | | | | |iitems]; try discriminate.
  cbn [py_items rbind].
  destruct (for_each (instrument_step n) iitems (frame_annotations st, false))
    as [wi|] eqn:Hloop1; cbn [rbind]; [|discriminate].
  destruct (py_get fd "actions" (JObj [])) as [acts|]; cbn [rbind];
    [|discriminate].
  destruct acts as [| | | | | |aitems]; try discriminate.
  cbn [py_items rbind].
  destruct (for_each (action_step n) aitems (fst wi, false))
    as [wa|] eqn:Hloop2; cbn [rbind]; [|discriminate].
  intros [= <-]. cbn.
  apply (presence_loop_flag n false _ (instrument_step_eq n)) in Hloop1.
  apply (presence_loop_flag n true _ (action_step_eq n)) in Hloop2.
  cbn [snd orb] in Hloop1, Hloop2. rewrite Hloop1, Hloop2.
  split; [reflexivity|].
  split; match goal with |- context [existsb ?f ?l] => destruct (existsb f l) end;
    now rewrite ?Nat.add_1_r, ?Nat.add_0_r.
Qed.

(** What a frame makes the loop raise does not depend on the state. *)
Lemma frame_step_Raise st it e :
  frame_step st it = Raise e -> forall st2, frame_step st2 it = Raise e.
Proof.
  destruct it as [k fd]. unfold frame_step. intros Hstep st2.
  destruct (py_int k) as [n|]; cbn [rbind] in *; [|exact Hstep].
  destruct (py_get fd "instruments" (JObj [])) as [instrs|]; cbn [rbind] in *;
    [|exact Hstep].
  destruct (py_items instrs) as [iitems|]; cbn [rbind] in *; [|exact Hstep].
  destruct (for_each (instrument_step n) iitems (frame_annotations st, false))
    as [wi|e1] eqn:Hloop1; cbn [rbind] in *.
  2:{ injection Hstep as ->.
      now rewrite (presence_loop_Raise n false _ (instrument_step_eq n)
                     iitems _ e Hloop1 (frame_annotations st2, false)). }
  destruct (presence_loop_Ok_iff n false _ (instrument_step_eq n) iitems
              (frame_annotations st2, false)) as [_ Hback].
  destruct Hback as [wi2 ->].
  { apply (presence_loop_Ok_iff n false _ (instrument_step_eq n) iitems
             (frame_annotations st, false)). now exists wi. }
  cbn [rbind].
  destruct (py_get fd "actions" (JObj [])) as [acts|]; cbn [rbind] in *;
    [|exact Hstep].
  destruct (py_items acts) as [aitems|]; cbn [rbind] in *; [|exact Hstep].
  destruct (for_each (action_step n) aitems (fst wi, false))
    as [wa|e2] eqn:Hloop2; cbn [rbind] in *; [discriminate|].
  injection Hstep as ->.
  now rewrite (presence_loop_Raise n true _ (action_step_eq n)
                 aitems _ e Hloop2 (fst wi2, false)).
Qed.

Lemma frame_error_None st it :
  frame_error it = None <-> exists st', frame_step st it = Ok st'.
Proof.
  unfold frame_error. destruct it as [k fd].
  rewrite (frame_step_Ok_iff st k fd).
  rewrite <- (frame_step_Ok_iff loop_start k fd).
  destruct (frame_step loop_start (k, fd)) as [st1|e]; split;
    try discriminate; eauto.
  intros [st' [=]].
Qed.

Lemma frame_error_Some st it e :
  frame_error it = Some e -> frame_step st it = Raise e.
Proof.
  unfold frame_error.
  destruct (frame_step loop_start it) as [st1|e1] eqn:E; [discriminate|].
  intros [= ->]. now apply (frame_step_Raise loop_start).
Qed.

Lemma frames_loop_Ok_iff frames : forall st,
  (exists st', for_each frame_step frames st = Ok st') <->
  forallb (fun it => parses (fst it) && readable_frame (snd it)) frames = true.
Proof.
  induction frames as [|[k fd] frames IH]; intros st;
    cbn [for_each forallb fst snd].
  - split; [reflexivity | intros _; now exists st].
  - rewrite andb_true_iff, <- (frame_step_Ok_iff st k fd).
    destruct (frame_step st (k, fd)) as [st1|e]; cbn [rbind].
    + rewrite IH. split; [intros H; split; eauto | tauto].
    + split; [intros [st' [=]] | intros [[st' [=]] _]].
Qed.

Lemma frames_loop_counters frames : forall st st',
  for_each frame_step frames st = Ok st' ->
  processed_frames st' = (processed_frames st + List.length frames)%nat /\
  frames_with_instruments st' =
    (frames_with_instruments st + count_frames_with "instruments" frames)%nat /\
  frames_with_actions st' =
    (frames_with_actions st + count_frames_with "actions" frames)%nat.
Proof.
  unfold count_frames_with.
  induction frames as [|[k fd] frames IH]; intros st st';
    cbn [for_each filter List.length snd].
  - intros [= <-]. now rewrite !Nat.add_0_r.
  - destruct (frame_step st (k, fd)) as [st1|] eqn:Hstep; cbn [rbind];
      [|discriminate].
    intros Hloop. apply IH in Hloop as (Hp & Hi & Ha).
    apply frame_step_counters in Hstep as (Hp1 & Hi1 & Ha1).
    rewrite Hp, Hi, Ha, Hp1, Hi1, Ha1.
    destruct (has_present fd "instruments"), (has_present fd "actions");
      cbn [List.length]; rewrite ?Nat.add_0_r, <- ?Nat.add_assoc;
      cbn [Nat.add]; repeat split; now rewrite ?Nat.add_succ_r.
Qed.

(** The loop raises what the first frame that cannot be processed raises. *)
Lemma frames_loop_first_error pre it post e : forall st,
  (forall x, In x pre -> frame_error x = None) ->
  frame_error it = Some e ->
  for_each frame_step (pre ++ it :: post) st = Raise e.
Proof.
  induction pre as [|x pre IH]; intros st Hpre Hit; cbn [app for_each].
  - now rewrite (frame_error_Some st it e Hit).
  - destruct (proj1 (frame_error_None st x) (Hpre x (or_introl eq_refl)))
      as [st1 ->].
    cbn [rbind]. apply IH; [|exact Hit].
    intros y Hy. apply Hpre. now right.
Qed.

Lemma build_index_Ok_iff data :
  (exists index, build_index data = Ok index) <-> loadable data = true.
Proof.
  unfold loadable. split.
  - intros [index Hbuild].
    apply build_index_inv in Hbuild as (frames & st & -> & Hne & Hloop & _).
    destruct frames as [|f rest]; [contradiction|].
    apply (frames_loop_Ok_iff (f :: rest) loop_start). now exists st.
  - destruct (frames_of data) as [[|f rest]|] eqn:Hframes; try discriminate.
    intros Hall.
    rewrite (build_index_frames data (f :: rest) Hframes).
    apply (frames_loop_Ok_iff (f :: rest) loop_start) in Hall as [st ->].
    cbn [rbind]. eexists. reflexivity.
Qed.

(** ** The threshold *)

(** On an int the test is [0 < z]. *)
Lemma py_gt_zero_int z : py_gt_zero (JInt z) = Ok true <-> 0 < z.
Proof.
  cbn [py_gt_zero]. split.
  - intros [= Hlt]. now apply Z.ltb_lt.
  - intros Hlt. apply Z.ltb_lt in Hlt. now rewrite Hlt.
Qed.

(** On a float the test holds for the positive finite values and for
    positive infinity, and fails for both zeros, the negatives and NaN. *)
Lemma py_gt_zero_float f :
  py_gt_zero (JFloat f) = Ok true <->
  (exists m e, f = S754_finite false m e) \/ f = S754_infinity false.
Proof.
  cbn [py_gt_zero]. split.
  - destruct f as [s|[|]| |[|] m e]; cbn; try discriminate; intros _.
    + now right.
    + left. now exists m, e.
  - intros [(m & e & ->)| ->]; reflexivity.
Qed.

(** The values 0, -1 and 0.0 are not above zero; 1, 5 and 0.5 are. *)
Example py_gt_zero_samples :
  map py_gt_zero [JInt 0; JInt (-1); JFloat (S754_zero false);
                  JInt 1; JInt 5; JFloat half] =
  [Ok false; Ok false; Ok false; Ok true; Ok true; Ok true].
Proof. reflexivity. Qed.

(** [int] on some keys. *)
Example py_int_samples :
  map py_int ["0"; "42"; "007"; " 7 "; "-3"; "1_000"; "abc"; ""; "1.5"; "1__0"] =
  [Ok 0; Ok 42; Ok 7; Ok 7; Ok (-3); Ok 1000;
   Raise ValueError; Raise ValueError; Raise ValueError; Raise ValueError].
Proof. reflexivity. Qed.

(** The end-to-end example of the specification. *)
Example build_index_example :
  build_index
    (JObj [("frames", JObj [
      ("0", JObj [("instruments", JObj [("grasper", JInt 1); ("hook", JInt 0)]);
                  ("actions", JObj [("cut", JInt 1)])])])]) =
  Ok [(0, {| instruments := [("grasper", 1)]; verbs := [("cut", 1)] |})].
Proof. reflexivity. Qed.

(** A document without a [frames] key is read as one with no frame, and
    the first-frame subscript raises on it as well. *)
Example build_index_without_frames : build_index (JObj []) = Raise IndexError.
Proof. reflexivity. Qed.

(** * The claims *)

(** C1, as stated, fails: in the document [two_frames] the frame key "1"
    parses to the frame number 1, the document is valid and the call returns
    an index, but that index has the single key 0: a frame none of whose
    values is above zero gets no entry. *)
Lemma frame_without_presence_has_no_entry :
  valid_document two_frames = true /\
  option_map dict_keys (frames_of two_frames) = Some ["0"; "1"] /\
  py_int "1" = Ok 1 /\
  fst (load_ground_truth heichole "VID01" dataset) = Ok two_frames_index /\
  dict_keys two_frames_index = [0] /\
  ~ In 1 (dict_keys two_frames_index).
Proof.
  repeat split; try reflexivity.
  cbn. intros [H|[]]. discriminate.
Qed.

(** C1, amended: for every valid annotation document with at least one
    frame, [load_ground_truth] returns an index whose keys are exactly the
    integer-parsed keys of the frames that have some instruments or actions
    value strictly greater than zero; every entry comes from a frame key of
    the document, and a frame without such a value has no entry. *)
Theorem index_keys_are_frames_with_presence self video w data frames :
  files w (json_file_of self video) = Some (Document data) ->
  valid_document data = true ->
  frames_of data = Some frames -> frames <> [] ->
  exists index w',
    load_ground_truth self video w = (Ok index, w') /\
    forall n,
      In n (dict_keys index) <->
      exists frame_num frame_data,
        In (frame_num, frame_data) frames /\
        py_int frame_num = Ok n /\
        has_positive frame_data.
Proof.
  intros Hfile Hvalid Hframes Hne.
  destruct (load_ground_truth_valid self video w data frames
              Hfile Hvalid Hframes Hne) as (index & w' & Hrun & Hbuild).
  exists index, w'. split; [exact Hrun|].
  apply build_index_spec in Hbuild
    as (frames' & Hframes' & _ & _ & Hkeys & _).
  assert (frames' = frames) as -> by congruence.
  exact Hkeys.
Qed.

Lemma index_keys_are_frames_with_presence_witness :
  exists index w',
    load_ground_truth heichole "VID01" dataset = (Ok index, w') /\
    forall n,
      In n (dict_keys index) <->
      exists frame_num frame_data,
        In (frame_num, frame_data) two_frames_items /\
        py_int frame_num = Ok n /\
        has_positive frame_data.
Proof.
  apply (index_keys_are_frames_with_presence heichole "VID01" dataset two_frames).
  - reflexivity.
  - reflexivity.
  - reflexivity.
  - discriminate.
Defined.

Lemma strictly_positive_spec value :
  is_number value = true ->
  py_gt_zero value = Ok true <-> strictly_positive value.
Proof.
  destruct value as [| |z|f| | |]; try discriminate; intros _.
  - apply py_gt_zero_int.
  - apply py_gt_zero_float.
Qed.

Lemma valid_frame_numbers frame_data is_verb items name value :
  valid_frame frame_data = true ->
  py_get frame_data (sub_key is_verb) (JObj []) = Ok (JObj items) ->
  In (name, value) items ->
  is_number value = true.
Proof.
  unfold valid_frame. intros Hvalid Hsub Hin.
  destruct (py_get frame_data "instruments" (JObj [])) as [instrs|] eqn:Hi;
    [|discriminate].
  destruct (py_get frame_data "actions" (JObj [])) as [acts|] eqn:Ha;
    [|discriminate].
  apply andb_true_iff in Hvalid as [Hinstrs Hacts].
  assert (Hmap : valid_presence_map (JObj items) = true)
    by (destruct is_verb; cbn [sub_key] in Hsub; congruence).
  cbn [valid_presence_map] in Hmap. apply andb_true_iff in Hmap as [_ Hnum].
  rewrite forallb_forall in Hnum. exact (Hnum (name, value) Hin).
Qed.

(** C2: for every frame of a valid document and every (name, value) pair
    of its instruments sub-map, the name is in the frame's instrument set of
    the returned index if and only if the value is strictly greater than 0:
    an int [z] with [0 < z], or a positive float (0.5 is one); an int that
    is zero or negative, a zero float, a negative float and NaN leave the
    name out.  Likewise for the actions sub-map and the verb set. *)
Theorem name_stored_iff_value_positive self video w data frames
    frame_num frame_data n :
  files w (json_file_of self video) = Some (Document data) ->
  valid_document data = true ->
  frames_of data = Some frames ->
  In (frame_num, frame_data) frames ->
  py_int frame_num = Ok n ->
  exists index w',
    load_ground_truth self video w = (Ok index, w') /\
    (forall items name value,
        py_get frame_data "instruments" (JObj []) = Ok (JObj items) ->
        In (name, value) items ->
        (In name (instrument_set index n) <-> strictly_positive value)) /\
    (forall items name value,
        py_get frame_data "actions" (JObj []) = Ok (JObj items) ->
        In (name, value) items ->
        (In name (verb_set index n) <-> strictly_positive value)).
Proof.
  intros Hfile Hvalid Hframes Hin Hn.
  assert (Hne : frames <> []) by (intros ->; contradiction).
  destruct (load_ground_truth_valid self video w data frames
              Hfile Hvalid Hframes Hne) as (index & w' & Hrun & Hbuild).
  exists index, w'. split; [exact Hrun|].
  apply build_index_spec in Hbuild
    as (frames' & Hframes' & _ & _ & _ & Hnames).
  assert (frames' = frames) as -> by congruence.
  destruct (valid_document_frame data frames frame_num frame_data
              Hvalid Hframes Hin) as (_ & Hfd & Hdistinct).
  destruct (set_of_lookup index n) as [-> ->].
  assert (Hside : forall is_verb items name value,
            py_get frame_data (sub_key is_verb) (JObj []) = Ok (JObj items) ->
            In (name, value) items ->
            In name (dict_keys (names_of is_verb (lookup_frame index n))) <->
            strictly_positive value).
  { intros is_verb items name value Hsub Hitem.
    rewrite <- (strictly_positive_spec value
                  (valid_frame_numbers frame_data is_verb items name value
                     Hfd Hsub Hitem)).
    rewrite Hnames,
      <- (present_in_valid frame_data is_verb items name value Hfd Hsub Hitem).
    split.
    - intros (k & fd & Hin' & Hk & Hpres).
      assert (Heq : (k, fd) = (frame_num, frame_data))
        by now apply (distinct_frame_numbers_one frames k fd frame_num frame_data n).
      injection Heq as -> ->. exact Hpres.
    - intros Hpres. now exists frame_num, frame_data. }
  split; [apply (Hside false) | apply (Hside true)].
Qed.

Lemma name_stored_iff_value_positive_witness :
  exists index w',
    load_ground_truth heichole "VID01" dataset = (Ok index, w') /\
    (forall items name value,
        py_get (JObj [("instruments", JObj [("grasper", JInt 5); ("hook", JInt 0)]);
                      ("actions", JObj [("cut", JFloat half)])])
          "instruments" (JObj []) = Ok (JObj items) ->
        In (name, value) items ->
        (In name (instrument_set index 0) <-> strictly_positive value)) /\
    (forall items name value,
        py_get (JObj [("instruments", JObj [("grasper", JInt 5); ("hook", JInt 0)]);
                      ("actions", JObj [("cut", JFloat half)])])
          "actions" (JObj []) = Ok (JObj items) ->
        In (name, value) items ->
        (In name (verb_set index 0) <-> strictly_positive value)).
Proof.
  apply (name_stored_iff_value_positive heichole "VID01" dataset two_frames
           two_frames_items "0").
  - reflexivity.
  - reflexivity.
  - reflexivity.
  - left. reflexivity.
  - reflexivity.
Defined.




Lemma dict_without_keys {K V} (d : dict K V) :
  (forall k, ~ In k (dict_keys d)) -> d = [].
Proof.
  destruct d as [|[k v] d]; [reflexivity|].
  intros Hnone. exfalso. apply (Hnone k). now left.
Qed.

(** C4, as stated, fails: in [bare_frame] the frame "7" has an empty
    [instruments] and no [actions]; the document is valid and the call
    returns, but the index it returns has the single key 0 and maps 7 to
    nothing. *)
Lemma bare_frame_has_no_entry :
  valid_document bare_frame = true /\
  option_map (dict_get "7") (frames_of bare_frame) =
    Some (Some (JObj [("instruments", JObj [])])) /\
  py_int "7" = Ok 7 /\
  fst (load_ground_truth heichole "VID02" dataset) =
    Ok [(0, {| instruments := [("grasper", 1)]; verbs := [] |})] /\
  dict_get 7 [(0, {| instruments := [("grasper", 1)]; verbs := [] |})] = None.
Proof. repeat split. Qed.

(** C4, amended: for a frame of a valid document whose instruments sub-map
    is empty (or absent) and whose actions key is absent (or empty),
    [load_ground_truth] returns: an absent sub-map is read as an empty one
    and the frame raises nothing.  The returned index stores no entry for
    that frame number, while every frame that has something present is
    stored; the subscript [index[n]] evaluates to the annotation of the
    default factory, with no instrument and no verb. *)
Theorem bare_frame_stores_no_entry self video w data frames
    frame_num fields n :
  files w (json_file_of self video) = Some (Document data) ->
  valid_document data = true ->
  frames_of data = Some frames ->
  In (frame_num, JObj fields) frames ->
  py_int frame_num = Ok n ->
  dict_get "instruments" fields = Some (JObj []) \/
  dict_get "instruments" fields = None ->
  dict_get "actions" fields = None \/
  dict_get "actions" fields = Some (JObj []) ->
  exists index w',
    load_ground_truth self video w = (Ok index, w') /\
    dict_get n index = None /\
    (forall other_num other_data m,
        In (other_num, other_data) frames ->
        py_int other_num = Ok m ->
        has_positive other_data ->
        In m (dict_keys index)) /\
    lookup_frame index n = {| instruments := []; verbs := [] |}.
Proof.
  intros Hfile Hvalid Hframes Hin Hn Hinstr Hact.
  assert (Hne : frames <> []) by (intros ->; contradiction).
  destruct (load_ground_truth_valid self video w data frames
              Hfile Hvalid Hframes Hne) as (index & w' & Hrun & Hbuild).
  exists index, w'. split; [exact Hrun|].
  apply build_index_spec in Hbuild
    as (frames' & Hframes' & _ & _ & Hkeys & _).
  assert (frames' = frames) as -> by congruence.
  destruct (valid_document_frame data frames frame_num (JObj fields)
              Hvalid Hframes Hin) as (_ & _ & Hdistinct).
  assert (Hempty : forall key,
            key = "instruments" \/ key = "actions" ->
            py_get (JObj fields) key (JObj []) = Ok (JObj [])).
  { intros key [-> | ->]; cbn [py_get].
    - destruct Hinstr as [-> | ->]; reflexivity.
    - destruct Hact as [-> | ->]; reflexivity. }
  assert (Hbare : ~ has_positive (JObj fields)).
  { intros (name & [Hpres|Hpres]);
      destruct Hpres as (sub & items & v & Hsub & Hitems & Hitem & _);
      rewrite Hempty in Hsub by tauto; injection Hsub as <-;
      injection Hitems as <-; contradiction. }
  assert (Hget : dict_get n index = None).
  { apply dict_get_None. rewrite Hkeys. intros (k & fd & Hin' & Hk & Hpos).
    assert (Heq : (k, fd) = (frame_num, JObj fields))
      by now apply (distinct_frame_numbers_one frames k fd frame_num
                      (JObj fields) n).
    injection Heq as -> ->. contradiction. }
  split; [exact Hget|]. split.
  - intros other_num other_data m Hother Hm Hpos. apply Hkeys.
    now exists other_num, other_data.
  - now rewrite lookup_frame_get, Hget.
Qed.

Lemma bare_frame_stores_no_entry_witness :
  exists index w',
    load_ground_truth heichole "VID02" dataset = (Ok index, w') /\
    dict_get 7 index = None /\
    (forall other_num other_data m,
        In (other_num, other_data) bare_frame_items ->
        py_int other_num = Ok m ->
        has_positive other_data ->
        In m (dict_keys index)) /\
    lookup_frame index 7 = {| instruments := []; verbs := [] |}.
Proof.
  apply (bare_frame_stores_no_entry heichole "VID02" dataset
           bare_frame bare_frame_items "7" [("instruments", JObj [])]).
  - reflexivity.
  - reflexivity.
  - reflexivity.
  - right. left. reflexivity.
  - reflexivity.
  - left. reflexivity.
  - left. reflexivity.
Defined.

(** C5, as stated, fails: the index returned for [two_frames] has no entry
    for frame 5, which the document does not have either, yet the subscript
    [index[5]] on the returned index stores an empty entry under 5. *)
Lemma subscript_of_absent_frame_adds_entry :
  option_map dict_keys (frames_of two_frames) = Some ["0"; "1"] /\
  fst (load_ground_truth heichole "VID01" dataset) = Ok two_frames_index /\
  dict_get 5 two_frames_index = None /\
  after_lookup two_frames_index 5 =
    [(0, {| instruments := [("grasper", 1)]; verbs := [("cut", 1)] |});
     (5, {| instruments := []; verbs := [] |})] /\
  In 5 (dict_keys (after_lookup two_frames_index 5)).
Proof.
  repeat split; try reflexivity.
  cbn. right. left. reflexivity.
Qed.

(** C5, amended: for every valid document with at least one frame and
    every frame number absent from its frames, that frame number is absent
    from the returned index; a subscript lookup of a stored frame number
    leaves the index unchanged, while a subscript lookup of an absent frame
    number appends an empty entry for it (the index is a [defaultdict], not
    read-only). *)
Theorem absent_frame_absent_until_subscripted self video w data frames n :
  files w (json_file_of self video) = Some (Document data) ->
  valid_document data = true ->
  frames_of data = Some frames -> frames <> [] ->
  (forall frame_num frame_data,
      In (frame_num, frame_data) frames -> py_int frame_num <> Ok n) ->
  exists index w',
    load_ground_truth self video w = (Ok index, w') /\
    dict_get n index = None /\
    (forall m, In m (dict_keys index) -> after_lookup index m = index) /\
    lookup_frame index n = new_frame /\
    after_lookup index n = (index ++ [(n, new_frame)])%list.
Proof.
  intros Hfile Hvalid Hframes Hne Habsent.
  destruct (load_ground_truth_valid self video w data frames
              Hfile Hvalid Hframes Hne) as (index & w' & Hrun & Hbuild).
  exists index, w'. split; [exact Hrun|].
  apply build_index_spec in Hbuild
    as (frames' & Hframes' & _ & _ & Hkeys & _).
  assert (frames' = frames) as -> by congruence.
  assert (Hout : ~ In n (dict_keys index)).
  { rewrite Hkeys. intros (k & fd & Hin & Hk & _). now apply (Habsent k fd). }
  split; [now apply dict_get_None|]. split; [|split].
  - intros m Hm. now apply defaultdict_getitem_stored.
  - unfold lookup_frame.
    now rewrite (defaultdict_getitem_missing new_frame n index Hout).
  - unfold after_lookup.
    now rewrite (defaultdict_getitem_missing new_frame n index Hout).
Qed.

Lemma absent_frame_absent_until_subscripted_witness :
  exists index w',
    load_ground_truth heichole "VID01" dataset = (Ok index, w') /\
    dict_get 5 index = None /\
    (forall m, In m (dict_keys index) -> after_lookup index m = index) /\
    lookup_frame index 5 = new_frame /\
    after_lookup index 5 = (index ++ [(5, new_frame)])%list.
Proof.
  apply (absent_frame_absent_until_subscripted heichole "VID01" dataset
           two_frames two_frames_items 5).
  - reflexivity.
  - reflexivity.
  - reflexivity.
  - discriminate.
  - intros frame_num frame_data [[= <- _]|[[= <- _]|[]]]; discriminate.
Defined.

(** The path of the annotation file, for a dataset directory written
    without a final separator and a relative video name. *)
Lemma ends_with_sep_app a b :
  b <> "" -> ends_with_sep (a ++ b) = ends_with_sep b.
Proof.
  intros Hb. induction a as [|c a IH]; [reflexivity|].
  cbn [append ends_with_sep]. rewrite IH.
  destruct (a ++ b) eqn:E; [|reflexivity].
  destruct a; [cbn in E; contradiction | discriminate].
Qed.

Lemma append_assoc (a b c : string) : (a ++ b) ++ c = a ++ (b ++ c).
Proof.
  induction a as [|x a IH]; [reflexivity|]. cbn [append]. now rewrite IH.
Qed.

Lemma json_file_of_template self video :
  dataset_dir self <> "" ->
  ends_with_sep (dataset_dir self) = false ->
  starts_with_sep video = false ->
  json_file_of self video = dataset_dir self ++ "/Labels/" ++ video ++ ".json".
Proof.
  intros Hdir Hsep Hvideo. unfold json_file_of, os_path_join at 2.
  cbn [starts_with_sep Ascii.eqb Bool.eqb]. rewrite Hsep.
  destruct (dataset_dir self) as [|c dir] eqn:Edir; [contradiction|].
  cbn [String.eqb orb]. unfold os_path_join.
  assert (starts_with_sep (video ++ ".json") = false) as ->.
  { destruct video; [reflexivity | exact Hvideo]. }
  rewrite ends_with_sep_app by discriminate.
  cbn [append String.eqb orb ends_with_sep Ascii.eqb Bool.eqb].
  now rewrite append_assoc.
Qed.

(** C6: when the annotation file does not exist the call raises
    [FileNotFoundError], and when its content is not well-formed JSON the
    call raises [JSONDecodeError]; the exception leaves the function (the
    handler prints and raises it again), no index is returned, and the
    files are as before. *)
Theorem missing_or_malformed_file_raises self video w :
  (files w (json_file_of self video) = None ->
   exists w',
     load_ground_truth self video w = (Raise FileNotFoundError, w') /\
     files w' = files w) /\
  (files w (json_file_of self video) = Some NotJSON ->
   exists w',
     load_ground_truth self video w = (Raise JSONDecodeError, w') /\
     files w' = files w).
Proof.
  pose proof (load_ground_truth_result self video w) as Hres.
  destruct (reads_load_ground_truth self video w) as (Hfiles & _ & _).
  split; intros Hfile; rewrite Hfile in Hres;
    destruct (run_fst _ _ _ Hres) as [w' Hrun]; exists w';
    (split; [exact Hrun|]); rewrite Hrun in Hfiles; exact Hfiles.
Qed.

Lemma missing_or_malformed_file_raises_witness :
  (exists w',
     load_ground_truth heichole "VID09" dataset = (Raise FileNotFoundError, w') /\
     files w' = files dataset) /\
  (exists w',
     load_ground_truth heichole "VID05" dataset = (Raise JSONDecodeError, w') /\
     files w' = files dataset).
Proof.
  split.
  - apply (missing_or_malformed_file_raises heichole "VID09" dataset).
    reflexivity.
  - apply (missing_or_malformed_file_raises heichole "VID05" dataset).
    reflexivity.
Defined.

(** Every call prints the path line before anything else. *)
Lemma load_ground_truth_prints_path self video w :
  exists out,
    stdout (snd (load_ground_truth self video w)) =
    (stdout w ++ LoadingAnnotationsFrom (json_file_of self video) :: out)%list.
Proof.
  unfold load_ground_truth. cbv zeta.
  match goal with
  | |- context [bind (print ?l) ?k] =>
      assert (Hk : reads_files_only (k tt))
  end.
  { cbv beta. repeat reads_step. apply reads_print_samples. }
  unfold bind at 1, print at 1. cbv beta iota.
  cbv beta in Hk.
  match goal with
  | |- context [snd (?rest ?w1)] =>
      destruct (Hk w1) as (_ & [out Hout] & _)
  end.
  exists out. rewrite Hout. cbn [stdout]. now rewrite <- app_assoc.
Qed.

(** C7, as stated, fails: a call has a side effect beyond building the
    index, it prints.  On [dataset], where nothing is printed yet, the call
    for a missing file leaves two lines and the call for VID01 thirteen,
    the path line first. *)
Lemma every_call_prints :
  stdout dataset = [] /\
  stdout (snd (load_ground_truth heichole "VID09" dataset)) =
    [LoadingAnnotationsFrom "/data/Bartscht/HeiChole/Labels/VID09.json";
     ErrorLoadingAnnotations FileNotFoundError] /\
  hd_error (stdout (snd (load_ground_truth heichole "VID01" dataset))) =
    Some (LoadingAnnotationsFrom "/data/Bartscht/HeiChole/Labels/VID01.json") /\
  List.length (stdout (snd (load_ground_truth heichole "VID01" dataset))) =
    13%nat.
Proof. repeat split. Qed.

(** C7, amended: the returned index is a function of the document alone:
    two calls that read the same document, whatever the evaluator, the
    video name and the world, return the same index or raise the same
    exception, and a second call right after a first one gives the result
    of the first; there is no hidden state and no file is changed.  The
    one effect of a call beyond that is on the output: it prints, the path
    line first. *)
Theorem index_is_function_of_document self video w :
  (forall self' video' w' data,
      files w (json_file_of self video) = Some (Document data) ->
      files w' (json_file_of self' video') = Some (Document data) ->
      fst (load_ground_truth self' video' w') =
      fst (load_ground_truth self video w)) /\
  (let after := snd (load_ground_truth self video w) in
   files after = files w /\
   (exists out,
       stdout after =
       (stdout w ++
        LoadingAnnotationsFrom (json_file_of self video) :: out)%list) /\
   fst (load_ground_truth self video after) =
   fst (load_ground_truth self video w)).
Proof.
  split.
  - intros self' video' w' data Hfile Hfile'.
    now rewrite !load_ground_truth_result, Hfile, Hfile'.
  - destruct (reads_load_ground_truth self video w) as (Hfiles & _ & Hres).
    cbn zeta. split; [exact Hfiles|].
    split; [apply load_ground_truth_prints_path|].
    apply Hres. exact Hfiles.
Qed.

Lemma index_is_function_of_document_witness :
  (forall self' video' w' data,
      files dataset (json_file_of heichole "VID01") = Some (Document data) ->
      files w' (json_file_of self' video') = Some (Document data) ->
      fst (load_ground_truth self' video' w') =
      fst (load_ground_truth heichole "VID01" dataset)) /\
  (let after := snd (load_ground_truth heichole "VID01" dataset) in
   files after = files dataset /\
   (exists out,
       stdout after =
       (stdout dataset ++
        LoadingAnnotationsFrom (json_file_of heichole "VID01") :: out)%list) /\
   fst (load_ground_truth heichole "VID01" after) =
   fst (load_ground_truth heichole "VID01" dataset)).
Proof.
  apply (index_is_function_of_document heichole "VID01" dataset).
Defined.

(** A call leaves nothing that a later call reads. *)
Lemma load_ground_truth_isolated self video_a video_b w :
  fst (load_ground_truth self video_b (snd (load_ground_truth self video_a w))) =
  fst (load_ground_truth self video_b w).
Proof.
  destruct (reads_load_ground_truth self video_a w) as (Hfiles & _ & _).
  destruct (reads_load_ground_truth self video_b w) as (_ & _ & Hres).
  now apply Hres.
Qed.

(** C8: after a failed build for video A, the build for video B returns
    what it returns without the build for A. *)
Theorem failed_build_does_not_contaminate self video_a video_b w e w_a :
  load_ground_truth self video_a w = (Raise e, w_a) ->
  fst (load_ground_truth self video_b w_a) =
  fst (load_ground_truth self video_b w).
Proof.
  intros Hfail.
  pose proof (load_ground_truth_isolated self video_a video_b w) as Hiso.
  now rewrite Hfail in Hiso.
Qed.

Lemma failed_build_does_not_contaminate_witness :
  fst (load_ground_truth heichole "VID01"
         (snd (load_ground_truth heichole "VID03" dataset))) =
  fst (load_ground_truth heichole "VID01" dataset).
Proof.
  apply (failed_build_does_not_contaminate heichole "VID03" "VID01" dataset
           ValueError).
  reflexivity.
Defined.

(** C9: on a well-formed document whose frames object is empty the call
    raises [IndexError], from the subscript that samples the first frame;
    no empty index is returned. *)
Theorem empty_frames_raise_IndexError self video w data :
  files w (json_file_of self video) = Some (Document data) ->
  frames_of data = Some [] ->
  exists w', load_ground_truth self video w = (Raise IndexError, w').
Proof.
  intros Hfile Hframes.
  pose proof (load_ground_truth_document self video w data Hfile) as Hres.
  rewrite (build_index_frames data [] Hframes) in Hres.
  exact (run_fst _ _ _ Hres).
Qed.

Lemma empty_frames_raise_IndexError_witness :
  exists w', load_ground_truth heichole "VID04" dataset = (Raise IndexError, w').
Proof.
  apply (empty_frames_raise_IndexError heichole "VID04" dataset no_frames).
  - reflexivity.
  - reflexivity.
Defined.

(** C10: in the index returned for a valid document, every instrument name
    and every verb name of every entry is mapped to the int 1, whatever the
    value in the document was. *)
Theorem stored_names_map_to_one self video w data frames :
  files w (json_file_of self video) = Some (Document data) ->
  valid_document data = true ->
  frames_of data = Some frames -> frames <> [] ->
  exists index w',
    load_ground_truth self video w = (Ok index, w') /\
    forall n entry,
      dict_get n index = Some entry ->
      (forall name x, In (name, x) (instruments entry) -> x = 1) /\
      (forall name x, In (name, x) (verbs entry) -> x = 1).
Proof.
  intros Hfile Hvalid Hframes Hne.
  destruct (load_ground_truth_valid self video w data frames
              Hfile Hvalid Hframes Hne) as (index & w' & Hrun & Hbuild).
  exists index, w'. split; [exact Hrun|].
  apply build_index_spec in Hbuild as (_ & _ & _ & Hones & _).
  intros n entry Hget. split; intros name x Hin.
  - now apply (Hones n entry false name x).
  - now apply (Hones n entry true name x).
Qed.

Lemma stored_names_map_to_one_witness :
  exists index w',
    load_ground_truth heichole "VID01" dataset = (Ok index, w') /\
    forall n entry,
      dict_get n index = Some entry ->
      (forall name x, In (name, x) (instruments entry) -> x = 1) /\
      (forall name x, In (name, x) (verbs entry) -> x = 1).
Proof.
  apply (stored_names_map_to_one heichole "VID01" dataset two_frames
           two_frames_items).
  - reflexivity.
  - reflexivity.
  - reflexivity.
  - discriminate.
Defined.

(** * Further properties of [load_ground_truth] *)

(** X1: the call returns an index exactly when the annotation file exists,
    decodes, and holds a [frames] object with at least one frame in which
    every key is an integer, every frame body is an object, and
    [instruments] and [actions], where present, are objects of ints, floats
    or booleans; in every other case it raises. *)
Theorem load_ground_truth_returns_iff_loadable self video w :
  (exists index w', load_ground_truth self video w = (Ok index, w')) <->
  (exists data,
      files w (json_file_of self video) = Some (Document data) /\
      loadable data = true).
Proof.
  pose proof (load_ground_truth_result self video w) as Hres. split.
  - intros (index & w' & Hrun). rewrite Hrun in Hres. cbn [fst] in Hres.
    destruct (files w (json_file_of self video)) as [[|data]|];
      try discriminate.
    exists data. split; [reflexivity|].
    apply build_index_Ok_iff. now exists index.
  - intros (data & Hfile & Hload). rewrite Hfile in Hres.
    apply build_index_Ok_iff in Hload as [index Hbuild].
    rewrite Hbuild in Hres. destruct (run_fst _ _ _ Hres) as [w' Hrun].
    now exists index, w'.
Qed.

(** X2: the exception that leaves the call is the one of the first frame,
    in document order, that cannot be processed: frames before it are
    processed, frames after it are not looked at. *)
Theorem first_defective_frame_decides self video w data pre item post e :
  files w (json_file_of self video) = Some (Document data) ->
  frames_of data = Some (pre ++ item :: post)%list ->
  (forall x, In x pre -> frame_error x = None) ->
  frame_error item = Some e ->
  exists w', load_ground_truth self video w = (Raise e, w').
Proof.
  intros Hfile Hframes Hpre Hitem.
  pose proof (load_ground_truth_document self video w data Hfile) as Hres.
  rewrite (build_index_frames data _ Hframes) in Hres.
  rewrite (frames_loop_first_error pre item post e loop_start Hpre Hitem)
    in Hres.
  destruct (pre ++ item :: post)%list eqn:E.
  - now destruct pre.
  - cbn [rbind] in Hres. exact (run_fst _ _ _ Hres).
Qed.

(** ** What a call prints *)

Lemma print_samples_run sample_frames : forall index w,
  (forall k, In k sample_frames -> In k (dict_keys index)) ->
  print_samples sample_frames index w =
  (Ok index,
   {| files := files w;
      stdout :=
        (stdout w ++
         flat_map
           (fun n => [FrameHeader n;
                      InstrumentsOf (instruments (lookup_frame index n));
                      ActionsOf (verbs (lookup_frame index n))])
           sample_frames)%list |}).
Proof.
  induction sample_frames as [|k ks IH]; intros index w Hstored;
    cbn [print_samples flat_map].
  - unfold ret. rewrite app_nil_r. now destruct w.
  - assert (Hk : In k (dict_keys index)) by (apply Hstored; now left).
    destruct (dict_keys_get k index Hk) as [entry Hget].
    rewrite lookup_frame_get, Hget.
    unfold defaultdict_getitem, bind, print. rewrite Hget. cbn.
    rewrite Hget. cbn. rewrite IH by (intros k' Hin; apply Hstored; now right).
    cbn [files stdout]. now rewrite <- !app_assoc.
Qed.

Lemma load_ground_truth_run_Ok self video w data k0 fd0 rest st :
  files w (json_file_of self video) = Some (Document data) ->
  frames_of data = Some ((k0, fd0) :: rest) ->
  for_each frame_step ((k0, fd0) :: rest) loop_start = Ok st ->
  load_ground_truth self video w =
  (Ok (frame_annotations st),
   {| files := files w;
      stdout :=
        (stdout w ++
         success_lines (json_file_of self video) ((k0, fd0) :: rest) fd0
           (frame_annotations st))%list |}).
Proof.
  intros Hfile Hframes Hloop.
  destruct (frames_loop_counters _ _ _ Hloop) as (Hp & Hi & Ha).
  cbn [loop_start processed_frames frames_with_instruments
       frames_with_actions Nat.add] in Hp, Hi, Ha.
  unfold frames_of in Hframes.
  destruct data as [| | | | | |top]; try discriminate.
  destruct (dict_get "frames" top) as [[| | | | | |fs]|] eqn:Htop;
    try discriminate.
  injection Hframes as ->.
  unfold load_ground_truth, try_except, bind, print, open_json_load, lift.
  cbn [files stdout]. rewrite Hfile. cbn [py_get]. rewrite Htop.
  cbn [py_len py_items list_getitem nth_error snd]. rewrite Hloop.
  rewrite print_samples_run by (intros k; apply firstn_In).
  cbn [files stdout]. rewrite Hp, Hi, Ha.
  unfold success_lines, sample_lines. cbn [app].
  now rewrite <- !app_assoc.
Qed.

(** X3: a call that returns has printed, in this order: the path line, the
    debug header, the number of frames, the first frame, the statistics
    (frames processed: every frame; frames with instruments, frames with
    actions: the frames with a value above zero in that sub-map), and the
    sample: at most the first three entries of the index.  It prints no
    error line and changes no file. *)
Theorem returned_call_prints_statistics self video w index w' :
  load_ground_truth self video w = (Ok index, w') ->
  exists data frame_num frame_data rest,
    files w (json_file_of self video) = Some (Document data) /\
    frames_of data = Some ((frame_num, frame_data) :: rest) /\
    files w' = files w /\
    stdout w' =
    (stdout w ++
     success_lines (json_file_of self video) ((frame_num, frame_data) :: rest)
       frame_data index)%list.
Proof.
  intros Hrun.
  pose proof (load_ground_truth_result self video w) as Hres.
  rewrite Hrun in Hres. cbn [fst] in Hres.
  destruct (files w (json_file_of self video)) as [[|data]|] eqn:Hfile;
    try discriminate.
  symmetry in Hres.
  apply build_index_inv in Hres as (frames & st & Hframes & Hne & Hloop & ->).
  destruct frames as [|[k0 fd0] rest]; [contradiction|].
  rewrite (load_ground_truth_run_Ok self video w data k0 fd0 rest st
             Hfile Hframes Hloop) in Hrun.
  injection Hrun as <-.
  exists data, k0, fd0, rest. repeat split; assumption.
Qed.

Ltac raised_with progress :=
  match goal with
  | H : (Raise _, _) = (Raise _, _) |- _ => injection H as <- <-
  end;
  split; [reflexivity|]; exists progress;
  split;
  [ repeat (apply Forall_cons; [unfold progress_line; eauto 6|]);
    apply Forall_nil
  | cbn [stdout app]; now rewrite <- !app_assoc ].

(** X4: a call that raises has printed the path line first and the error
    line, for the exception it raises, last; between them only progress
    lines, never the statistics or a sample; and it changes no file. *)
Theorem raised_call_prints_error_last self video w e w' :
  load_ground_truth self video w = (Raise e, w') ->
  files w' = files w /\
  exists progress,
    Forall progress_line progress /\
    stdout w' =
    (stdout w ++
     LoadingAnnotationsFrom (json_file_of self video)
       :: progress ++ [ErrorLoadingAnnotations e])%list.
Proof.
  unfold load_ground_truth, try_except, bind, print, open_json_load, lift, raise.
  cbn [files stdout].
  destruct (files w (json_file_of self video)) as [[|data]|];
    intros Hrun; try (raised_with (@nil output)).
  destruct (py_get data "frames" (JObj [])) as [frames|];
    try (raised_with (@nil output)).
  destruct (py_len frames) as [total|];
    try (raised_with [DebugInformation]).
  destruct (py_items frames) as [frame_items|];
    try (raised_with [DebugInformation; TotalFramesInJSON total]).
  destruct (list_getitem frame_items 0) as [first_frame|];
    try (raised_with [DebugInformation; TotalFramesInJSON total]).
  destruct (for_each frame_step frame_items loop_start) as [st|];
    try (raised_with [DebugInformation; TotalFramesInJSON total;
                      ExampleFrameStructure; JsonDumps (snd first_frame)]).
  rewrite print_samples_run in Hrun by (intros k; apply firstn_In).
  discriminate.
Qed.

(** ** The content of a returned index *)

Lemma load_ground_truth_Ok_inv self video w index w' :
  load_ground_truth self video w = (Ok index, w') ->
  exists data,
    files w (json_file_of self video) = Some (Document data) /\
    build_index data = Ok index.
Proof.
  intros Hrun.
  pose proof (load_ground_truth_result self video w) as Hres.
  rewrite Hrun in Hres. cbn [fst] in Hres.
  destruct (files w (json_file_of self video)) as [[|data]|];
    try discriminate.
  now exists data.
Qed.

(** X5: in any returned index, valid document or not, the names stored for
    a frame number are those present in some frame whose key parses to that
    number: frames whose keys denote the same number (as "7" and "07" do)
    share one entry, which holds the union of their present names. *)
Theorem frames_with_equal_numbers_merge self video w index w' data frames :
  load_ground_truth self video w = (Ok index, w') ->
  files w (json_file_of self video) = Some (Document data) ->
  frames_of data = Some frames ->
  forall n name,
    (In name (instrument_set index n) <->
     exists frame_num frame_data,
       In (frame_num, frame_data) frames /\ py_int frame_num = Ok n /\
       present_in frame_data "instruments" name) /\
    (In name (verb_set index n) <->
     exists frame_num frame_data,
       In (frame_num, frame_data) frames /\ py_int frame_num = Ok n /\
       present_in frame_data "actions" name).
Proof.
  intros Hrun Hfile Hframes n name.
  apply load_ground_truth_Ok_inv in Hrun as (data' & Hfile' & Hbuild).
  assert (data' = data) as -> by congruence.
  apply build_index_spec in Hbuild as (frames' & Hframes' & _ & _ & _ & Hnames).
  assert (frames' = frames) as -> by congruence.
  destruct (set_of_lookup index n) as [-> ->].
  split; [apply (Hnames n false name) | apply (Hnames n true name)].
Qed.

Lemma dict_setitem_NoDup {K V} `{PyKey K} (k : K) (v : V) (d : dict K V) :
  NoDup (dict_keys d) -> NoDup (dict_keys (dict_setitem k v d)).
Proof.
  induction d as [|[k0 v0] d IH]; cbn [dict_setitem].
  - intros _. repeat constructor. intros [].
  - intros Hnd. inversion Hnd as [|? ? Hout Hrest]; subst.
    destruct (key_eqb k k0) eqn:E; [exact Hnd|].
    change (NoDup (k0 :: dict_keys (dict_setitem k v d))).
    constructor; [|now apply IH].
    rewrite dict_keys_setitem. intros [->|Hin]; [|contradiction].
    rewrite key_eqb_refl in E. discriminate.
Qed.

Lemma In_dict_get {K V} `{PyKey K} (k : K) (v : V) (d : dict K V) :
  NoDup (dict_keys d) -> In (k, v) d -> dict_get k d = Some v.
Proof.
  induction d as [|[k0 v0] d IH]; cbn [In dict_get]; [contradiction|].
  intros Hnd. inversion Hnd as [|? ? Hout Hrest]; subst.
  intros [[= -> ->]|Hin].
  - now rewrite key_eqb_refl.
  - destruct (key_eqb k k0) eqn:E; [|now apply IH].
    apply key_eqb_true in E. subst k0. exfalso. apply Hout.
    now apply (in_map fst) in Hin.
Qed.

Lemma dict_setitem_nonempty {K V} `{PyKey K} (k : K) (v : V) (d : dict K V) :
  dict_setitem k v d <> [].
Proof.
  destruct d as [|[k0 v0] d]; cbn [dict_setitem]; [discriminate|].
  destruct (key_eqb k k0); discriminate.
Qed.

Lemma apply_mark_kept index mk : kept_by_marks index -> kept_by_marks (apply_mark index mk).
Proof.
  destruct mk as [[n b] name]. intros [Hkeys Hentries]. split.
  - unfold apply_mark, mark_verb, mark_instrument, defaultdict_getitem.
    destruct b, (dict_get n index); repeat apply dict_setitem_NoDup; exact Hkeys.
  - intros m entry Hget.
    destruct (Z.eq_dec m n) as [->|Hne].
    + destruct (apply_mark_get_same index n b name) as (e & Hget' & Hset & Hkeep).
      assert (entry = e) as -> by congruence.
      assert (Hold : forall side, NoDup (dict_keys (names_of side (lookup_frame index n)))).
      { intros side. rewrite lookup_frame_get.
        destruct (dict_get n index) as [e0|] eqn:E.
        - now apply (Hentries n e0 E).
        - destruct side; constructor. }
      split.
      * intros side. destruct (Bool.bool_dec side b) as [->|Hb].
        -- rewrite Hset. apply dict_setitem_NoDup, Hold.
        -- assert (side = negb b) as -> by (destruct b, side; simpl; congruence).
           rewrite Hkeep. apply Hold.
      * exists b. rewrite Hset. apply dict_setitem_nonempty.
    + rewrite apply_mark_get_other in Hget by exact Hne.
      now apply (Hentries m entry).
Qed.

Lemma marks_kept marks : forall index,
  kept_by_marks index -> kept_by_marks (fold_left apply_mark marks index).
Proof.
  induction marks as [|mk marks IH]; intros index Hkept; cbn [fold_left];
    [exact Hkept|].
  apply IH. now apply apply_mark_kept.
Qed.

(** X6: a returned index is a proper dict and holds no empty entry: every
    frame number occurs once, within an entry every instrument name and
    every verb name occurs once, and every entry has at least one instrument
    or one verb. *)
Theorem returned_index_is_proper self video w index w' :
  load_ground_truth self video w = (Ok index, w') -> proper_index index.
Proof.
  intros Hrun.
  apply load_ground_truth_Ok_inv in Hrun as (data & _ & Hbuild).
  apply build_index_inv in Hbuild as (frames & st & _ & _ & Hloop & ->).
  apply frames_loop_marks in Hloop as (_ & marks & -> & _).
  cbn [frame_annotations loop_start].
  assert (Hstart : kept_by_marks []).
  { split; [constructor | intros n entry [=]]. }
  destruct (marks_kept marks [] Hstart) as [Hkeys Hentries].
  split; [exact Hkeys|].
  intros n entry Hin. apply (In_dict_get n entry _ Hkeys) in Hin.
  destruct (Hentries n entry Hin) as [Hnames [side Hside]].
  split; [apply (Hnames false)|]. split; [apply (Hnames true)|].
  destruct side; [now right | now left].
Qed.

(** ** The order of the entries *)

Lemma add_key_In keys n m : In m (add_key keys n) <-> In m keys \/ m = n.
Proof.
  unfold add_key. destruct (existsb (Z.eqb n) keys) eqn:E.
  - split; [now left|]. intros [Hin| ->]; [exact Hin|].
    apply existsb_exists in E as (x & Hx & Heq). apply Z.eqb_eq in Heq.
    now subst.
  - rewrite in_app_iff. cbn [In]. intuition.
Qed.

Lemma add_key_present keys n : In n keys -> add_key keys n = keys.
Proof.
  intros Hin. unfold add_key.
  assert (existsb (Z.eqb n) keys = true) as ->; [|reflexivity].
  apply existsb_exists. exists n. split; [exact Hin | apply Z.eqb_refl].
Qed.

Lemma add_key_absent keys n : ~ In n keys -> add_key keys n = (keys ++ [n])%list.
Proof.
  intros Hout. unfold add_key.
  destruct (existsb (Z.eqb n) keys) eqn:E; [|reflexivity].
  apply existsb_exists in E as (x & Hx & Heq). apply Z.eqb_eq in Heq.
  subst. contradiction.
Qed.

Lemma dict_keys_setitem_add {V} (n : Z) (v : V) (d : dict Z V) :
  dict_keys (dict_setitem n v d) = add_key (dict_keys d) n.
Proof.
  unfold add_key, dict_keys.
  induction d as [|[k0 v0] d IH]; cbn [dict_setitem map existsb fst];
    [reflexivity|].
  change (key_eqb n k0) with (n =? k0).
  destruct (n =? k0); cbn [map fst orb]; [reflexivity|].
  rewrite IH. now destruct (existsb (Z.eqb n) (map fst d)).
Qed.

Lemma apply_mark_keys_add index n b name :
  dict_keys (apply_mark index (n, b, name)) = add_key (dict_keys index) n.
Proof.
  unfold apply_mark, mark_verb, mark_instrument, defaultdict_getitem.
  destruct b, (dict_get n index) eqn:E;
    rewrite !dict_keys_setitem_add; try reflexivity;
    apply add_key_present, add_key_In; now right.
Qed.

(** The assignments of one frame add its number once. *)
Lemma marks_of_one_frame_keys n marks : forall index,
  (forall mk, In mk marks -> fst (fst mk) = n) ->
  dict_keys (fold_left apply_mark marks index) =
  match marks with
  | [] => dict_keys index
  | _ :: _ => add_key (dict_keys index) n
  end.
Proof.
  induction marks as [|[[m b] name] marks IH]; intros index Hsame;
    cbn [fold_left]; [reflexivity|].
  assert (m = n) as -> by (apply (Hsame (m, b, name)); now left).
  rewrite IH by (intros mk Hin; apply Hsame; now right).
  rewrite apply_mark_keys_add.
  destruct marks; [reflexivity|].
  apply add_key_present, add_key_In. now right.
Qed.

Lemma frame_step_keys st k fd st' n :
  frame_step st (k, fd) = Ok st' -> py_int k = Ok n ->
  dict_keys (frame_annotations st') =
  if has_present fd "instruments" || has_present fd "actions"
  then add_key (dict_keys (frame_annotations st)) n
  else dict_keys (frame_annotations st).
Proof.
  intros Hstep Hk.
  apply frame_step_marks in Hstep as (n' & marks & Hk' & -> & Hmarks).
  assert (n' = n) as -> by congruence.
  rewrite (marks_of_one_frame_keys n marks).
  2:{ intros mk Hin. apply Hmarks in Hin as (b & nm & -> & _). reflexivity. }
  destruct (has_present fd "instruments" || has_present fd "actions") eqn:E.
  - destruct marks as [|mk marks]; [|reflexivity]. exfalso.
    apply orb_true_iff in E as [E|E]; apply has_present_spec in E as [nm Hp].
    + apply (proj2 (Hmarks (n, false, nm))). now exists false, nm.
    + apply (proj2 (Hmarks (n, true, nm))). now exists true, nm.
  - destruct marks as [|mk marks]; [reflexivity|]. exfalso.
    destruct (proj1 (Hmarks mk) (or_introl eq_refl)) as (b & nm & _ & Hp).
    apply orb_false_iff in E as [Ei Ea].
    assert (has_present fd (sub_key b) = true)
      by (apply has_present_spec; now exists nm).
    destruct b; cbn [sub_key] in *; congruence.
Qed.

Lemma frames_loop_keys frames : forall st st',
  for_each frame_step frames st = Ok st' ->
  dict_keys (frame_annotations st') =
  fold_left add_key (present_frame_numbers frames)
    (dict_keys (frame_annotations st)).
Proof.
  induction frames as [|[k fd] frames IH]; intros st st';
    cbn [for_each present_frame_numbers flat_map fst snd].
  - now intros [= <-].
  - destruct (frame_step st (k, fd)) as [st1|] eqn:Hstep; cbn [rbind];
      [|discriminate].
    intros Hloop. apply IH in Hloop. rewrite Hloop, fold_left_app.
    pose proof (frame_step_marks _ _ _ _ Hstep) as (n & _ & Hk & _).
    rewrite (frame_step_keys st k fd st1 n Hstep Hk), Hk.
    now destruct (has_present fd "instruments" || has_present fd "actions").
Qed.

Lemma fold_add_key_fresh l : forall keys,
  NoDup (keys ++ l) -> fold_left add_key l keys = (keys ++ l)%list.
Proof.
  induction l as [|n l IH]; intros keys Hnd; cbn [fold_left].
  - now rewrite app_nil_r.
  - rewrite add_key_absent.
    + rewrite IH; rewrite <- app_assoc; [reflexivity | exact Hnd].
    + apply NoDup_remove_2 in Hnd. intros Hin. apply Hnd.
      apply in_app_iff. now left.
Qed.

Lemma present_frame_numbers_In frames n :
  In n (present_frame_numbers frames) ->
  exists k fd, In (k, fd) frames /\ py_int k = Ok n.
Proof.
  unfold present_frame_numbers. rewrite in_flat_map.
  intros ([k fd] & Hin & Hn). cbn [fst snd] in Hn.
  destruct (py_int k) as [m|] eqn:Hk; [|contradiction].
  destruct (has_present fd "instruments" || has_present fd "actions");
    [|contradiction].
  destruct Hn as [<-|[]]. now exists k, fd.
Qed.

Lemma present_frame_numbers_NoDup frames :
  distinct_frame_numbers frames = true -> NoDup (present_frame_numbers frames).
Proof.
  induction frames as [|[k fd] frames IH];
    cbn [distinct_frame_numbers present_frame_numbers flat_map fst snd];
    [constructor|].
  intros Hd. apply andb_true_iff in Hd as [Hk Hrest].
  apply negb_true_iff in Hk. specialize (IH Hrest).
  destruct (py_int k) as [n|] eqn:Hn; [|exact IH].
  destruct (has_present fd "instruments" || has_present fd "actions");
    [|exact IH].
  cbn [app]. constructor; [|exact IH].
  intros Hin. apply present_frame_numbers_In in Hin as (k' & fd' & Hin & Hk').
  assert (existsb (fun it => same_frame_number k (fst it)) frames = true);
    [|congruence].
  apply existsb_exists. exists (k', fd'). split; [exact Hin|].
  unfold same_frame_number. cbn [fst]. rewrite Hn, Hk'. apply Z.eqb_refl.
Qed.

(** X7: the entries of a returned index come in document order: its keys
    are the numbers of the frames that have something present, each at its
    first occurrence; when no two keys denote the same number, that is the
    list of those numbers as the document orders them. *)
Theorem index_keeps_document_order self video w index w' data frames :
  load_ground_truth self video w = (Ok index, w') ->
  files w (json_file_of self video) = Some (Document data) ->
  frames_of data = Some frames ->
  dict_keys index = first_occurrences (present_frame_numbers frames) /\
  (distinct_frame_numbers frames = true ->
   dict_keys index = present_frame_numbers frames).
Proof.
  intros Hrun Hfile Hframes.
  apply load_ground_truth_Ok_inv in Hrun as (data' & Hfile' & Hbuild).
  assert (data' = data) as -> by congruence.
  apply build_index_inv in Hbuild as (frames' & st & Hframes' & _ & Hloop & ->).
  assert (frames' = frames) as -> by congruence.
  apply frames_loop_keys in Hloop. cbn [loop_start frame_annotations] in Hloop.
  split; [exact Hloop|].
  intros Hd. rewrite Hloop.
  apply (fold_add_key_fresh (present_frame_numbers frames) []).
  now apply present_frame_numbers_NoDup.
Qed.

(** ** The order of the frames, and the file read *)

Lemma forallb_Permutation {A} (f : A -> bool) (l l' : list A) :
  Permutation l l' -> forallb f l = true -> forallb f l' = true.
Proof.
  intros Hperm. rewrite !forallb_forall. intros Hall x Hin.
  apply Hall. apply (Permutation_in x (Permutation_sym Hperm) Hin).
Qed.

(** X8: listing the same frames in another order changes neither whether
    the call returns nor what the index holds: the same frame numbers have
    entries, with the same instrument names and the same verb names (all
    mapped to 1, so the two indices are equal as Python dicts). *)
Theorem frame_order_is_irrelevant
    self video w index w1 data frames self2 video2 w2 data2 frames2 :
  load_ground_truth self video w = (Ok index, w1) ->
  files w (json_file_of self video) = Some (Document data) ->
  frames_of data = Some frames ->
  files w2 (json_file_of self2 video2) = Some (Document data2) ->
  frames_of data2 = Some frames2 ->
  Permutation frames frames2 ->
  exists index2 w3,
    load_ground_truth self2 video2 w2 = (Ok index2, w3) /\
    (forall n, In n (dict_keys index) <-> In n (dict_keys index2)) /\
    (forall n name,
        (In name (instrument_set index n) <-> In name (instrument_set index2 n)) /\
        (In name (verb_set index n) <-> In name (verb_set index2 n))).
Proof.
  intros Hrun Hfile Hframes Hfile2 Hframes2 Hperm.
  apply load_ground_truth_Ok_inv in Hrun as (data' & Hfile' & Hbuild).
  assert (data' = data) as -> by congruence.
  assert (Hload2 : loadable data2 = true).
  { assert (Hload : loadable data = true)
      by (apply build_index_Ok_iff; now exists index).
    unfold loadable in *. rewrite Hframes in Hload. rewrite Hframes2.
    destruct frames as [|f rest]; [discriminate|].
    destruct frames2 as [|f2 rest2];
      [now apply Permutation_sym, Permutation_nil in Hperm|].
    now apply (forallb_Permutation _ _ _ Hperm). }
  apply build_index_Ok_iff in Hload2 as [index2 Hbuild2].
  destruct (run_fst (load_ground_truth self2 video2) w2 (Ok index2)) as [w3 Hrun2].
  { now rewrite (load_ground_truth_document self2 video2 w2 data2 Hfile2). }
  exists index2, w3. split; [exact Hrun2|].
  apply build_index_spec in Hbuild as (fs & Hfs & _ & _ & Hkeys & Hnames).
  apply build_index_spec in Hbuild2 as (fs2 & Hfs2 & _ & _ & Hkeys2 & Hnames2).
  assert (fs = frames) as -> by congruence.
  assert (fs2 = frames2) as -> by congruence.
  assert (Hin : forall x, In x frames <-> In x frames2).
  { intros x. split; [apply (Permutation_in x Hperm)|].
    apply (Permutation_in x (Permutation_sym Hperm)). }
  split.
  - intros n. rewrite Hkeys, Hkeys2.
    split; intros (k & fd & Hk & Hrest); exists k, fd; split;
      try exact Hrest; now apply Hin.
  - intros n name.
    destruct (set_of_lookup index n) as [-> ->].
    destruct (set_of_lookup index2 n) as [-> ->].
    rewrite !Hnames, !Hnames2.
    split; split; intros (k & fd & Hk & Hrest); exists k, fd; split;
      try exact Hrest; now apply Hin.
Qed.

(** X9: the outcome of a call depends on one file only, the one at the
    path computed from the dataset directory and the video name: worlds
    that agree on that path give the same index or the same exception,
    whatever else they hold. *)
Theorem only_the_annotation_file_is_read self video w w2 :
  files w (json_file_of self video) = files w2 (json_file_of self video) ->
  fst (load_ground_truth self video w) = fst (load_ground_truth self video w2).
Proof.
  intros Hsame. now rewrite !load_ground_truth_result, Hsame.
Qed.

(** X10: the path of the annotation file.  With a relative video name it
    is [Labels/<video>.json] under the dataset directory (one separator
    between them, none doubled; relative when the directory is the empty
    string); a video name that starts with a separator is taken as an
    absolute path, and the dataset directory plays no part. *)
Theorem annotation_file_path self video :
  (starts_with_sep video = true ->
   json_file_of self video = video ++ ".json") /\
  (starts_with_sep video = false ->
   dataset_dir self = "" ->
   json_file_of self video = "Labels/" ++ video ++ ".json") /\
  (starts_with_sep video = false ->
   ends_with_sep (dataset_dir self) = true ->
   json_file_of self video = dataset_dir self ++ "Labels/" ++ video ++ ".json") /\
  (starts_with_sep video = false ->
   dataset_dir self <> "" ->
   ends_with_sep (dataset_dir self) = false ->
   json_file_of self video = dataset_dir self ++ "/Labels/" ++ video ++ ".json").
Proof.
  assert (Hjson : forall v, starts_with_sep (v ++ ".json") = starts_with_sep v)
    by (intros [|c v]; reflexivity).
  unfold json_file_of. repeat split.
  - intros Hvideo. unfold os_path_join at 1. now rewrite Hjson, Hvideo.
  - intros Hvideo ->. unfold os_path_join. now rewrite Hjson, Hvideo.
  - intros Hvideo Hsep. unfold os_path_join. rewrite Hjson, Hvideo.
    cbn [starts_with_sep Ascii.eqb Bool.eqb]. rewrite Hsep, orb_true_r.
    rewrite ends_with_sep_app by discriminate.
    cbn [ends_with_sep Ascii.eqb Bool.eqb].
    destruct (dataset_dir self) as [|c dir]; [discriminate|].
    cbn [String.eqb orb append]. now rewrite !append_assoc.
  - intros Hvideo Hdir Hsep. now apply json_file_of_template.
Qed.

(** * Feature collection *)

Lemma lower_char_idempotent c : lower_char (lower_char c) = lower_char c.
Proof. destruct c as [[] [] [] [] [] [] [] []]; reflexivity. Qed.

Lemma lower_char_not_capital c :
  ~ (65 <= nat_of_ascii (lower_char c) <= 90)%nat.
Proof.
  destruct c as [[] [] [] [] [] [] [] []]; vm_compute;
    intros [H1 H2]; repeat (apply le_S_n in H1 || apply le_S_n in H2);
    solve [inversion H1 | inversion H2].
Qed.

Lemma py_lower_idempotent s : py_lower (py_lower s) = py_lower s.
Proof.
  induction s as [|c s IH]; cbn [py_lower]; [reflexivity|].
  now rewrite lower_char_idempotent, IH.
Qed.

Section FeatureCollectionFacts.
Context {F : Type}.
Implicit Types (r : frame_result F) (acc : collected F).
Implicit Types (frames : list (frame_result F)).

Lemma append_per_label_repeat count (features : F) frame_idx :
  forall lists : list F * list nat,
  append_per_label count features frame_idx lists =
  ((fst lists ++ repeat features count)%list,
   (snd lists ++ repeat frame_idx count)%list).
Proof.
  induction count as [|count IH]; intros [fs idxs];
    cbn [append_per_label repeat fst snd].
  - now rewrite !app_nil_r.
  - rewrite IH. cbn [fst snd]. now rewrite <- !app_assoc.
Qed.

Lemma collect_from_rows frames : forall frame_idx acc,
  collect_from frame_idx frames acc =
  {| all_features :=
       (all_features acc ++
        map (fun row => fst (fst row)) (rows_from frame_idx frames))%list;
     all_labels :=
       (all_labels acc ++
        map (fun row => snd (fst row)) (rows_from frame_idx frames))%list;
     frame_indices :=
       (frame_indices acc ++ map snd (rows_from frame_idx frames))%list |}.
Proof.
  induction frames as [|r frames IH]; intros frame_idx acc;
    cbn [collect_from rows_from map].
  - rewrite !app_nil_r. now destruct acc.
  - rewrite IH. unfold collect_frame.
    rewrite append_per_label_repeat, !map_app, !map_map, length_map.
    cbn [fst snd].
    rewrite !map_const.
    destruct (box_names r) as [|name names]; cbn [List.length Nat.ltb Nat.leb];
      cbn [all_features all_labels frame_indices repeat map app];
      now rewrite ?app_nil_r, <- ?app_assoc.
Qed.

Lemma rows_from_In frames : forall frame_idx features label j,
  In (features, label, j) (rows_from frame_idx frames) <->
  exists r name,
    (frame_idx <= j)%nat /\ nth_error frames (j - frame_idx) = Some r /\
    In name (box_names r) /\
    features = features_np r /\ label = py_lower name.
Proof.
  induction frames as [|r0 frames IH]; intros frame_idx features label j;
    cbn [rows_from In].
  - split; [contradiction|]. intros (r & name & _ & Hnth & _).
    now destruct (j - frame_idx)%nat.
  - rewrite in_app_iff, in_map_iff, IH. split.
    + intros [(name & [= <- <- <-] & Hin)|(r & name & Hle & Hnth & Hrest)].
      * exists r0, name. rewrite Nat.sub_diag. auto.
      * exists r, name. split; [now apply Nat.lt_le_incl|].
        replace (j - frame_idx)%nat with (S (j - S frame_idx))
          by (rewrite <- Nat.sub_succ_l by exact Hle; reflexivity).
        auto.
    + intros (r & name & Hle & Hnth & Hin & -> & ->).
      destruct (Nat.eq_dec j frame_idx) as [->|Hne].
      * left. rewrite Nat.sub_diag in Hnth. injection Hnth as <-.
        now exists name.
      * right. exists r, name.
        assert (Hlt : (frame_idx < j)%nat)
          by (apply Nat.le_neq; split; [exact Hle | congruence]).
        split; [exact Hlt|].
        replace (j - frame_idx)%nat with (S (j - S frame_idx)) in Hnth
          by (rewrite <- Nat.sub_succ_l by exact Hlt; reflexivity).
        auto.
Qed.

Lemma rows_from_sorted frames : forall frame_idx,
  StronglySorted le (map snd (rows_from frame_idx frames)).
Proof.
  induction frames as [|r frames IH]; intros frame_idx; cbn [rows_from map];
    [constructor|].
  rewrite map_app, map_map. cbn [snd].
  induction (box_names r) as [|name names IHn]; cbn [map app]; [apply IH|].
  constructor; [exact IHn|].
  apply Forall_forall. intros j Hj. apply in_app_iff in Hj as [Hj|Hj].
  - apply in_map_iff in Hj as (x & <- & _). apply le_n.
  - apply in_map_iff in Hj as ([[f l] j'] & <- & Hin).
    apply rows_from_In in Hin as (r' & nm & Hle & _). cbn [snd].
    now apply Nat.lt_le_incl.
Qed.

Lemma rows_from_count frames : forall frame_idx i,
  count_occ Nat.eq_dec (map snd (rows_from frame_idx frames)) i =
  if (frame_idx <=? i)%nat
  then match nth_error frames (i - frame_idx) with
       | Some r => List.length (box_names r)
       | None => O
       end
  else O.
Proof.
  induction frames as [|r frames IH]; intros frame_idx i; cbn [rows_from map].
  - cbn [count_occ]. destruct (frame_idx <=? i)%nat; [|reflexivity].
    now destruct (i - frame_idx)%nat.
  - rewrite map_app, map_map, count_occ_app, IH. cbn [snd].
    assert (Hhere : count_occ Nat.eq_dec
                      (map (fun _ : string => frame_idx) (box_names r)) i =
                    if Nat.eq_dec frame_idx i
                    then List.length (box_names r) else O).
    { induction (box_names r) as [|name names IHn]; cbn [map count_occ List.length].
      - now destruct (Nat.eq_dec frame_idx i).
      - rewrite IHn. now destruct (Nat.eq_dec frame_idx i). }
    rewrite Hhere.
    destruct (Nat.eq_dec frame_idx i) as [->|Hne].
    + rewrite Nat.leb_refl, Nat.sub_diag. cbn [nth_error].
      assert ((S i <=? i)%nat = false) as -> by (apply Nat.leb_gt, Nat.lt_succ_diag_r).
      apply Nat.add_0_r.
    + destruct (frame_idx <=? i)%nat eqn:Hle.
      * apply Nat.leb_le in Hle.
        assert (Hlt : (frame_idx < i)%nat)
          by (apply Nat.le_neq; split; assumption).
        assert ((S frame_idx <=? i)%nat = true) as -> by now apply Nat.leb_le.
        replace (i - frame_idx)%nat with (S (i - S frame_idx))
          by (rewrite <- Nat.sub_succ_l by exact Hlt; reflexivity).
        reflexivity.
      * apply Nat.leb_gt in Hle.
        assert ((S frame_idx <=? i)%nat = false) as ->; [|reflexivity].
        apply Nat.leb_gt. now apply Nat.lt_lt_succ_r.
Qed.

Lemma extracted_rows frames c :
  extract_and_visualize_features frames = Some c ->
  all_features c = map (fun row => fst (fst row)) (rows_from 0 frames) /\
  all_labels c = map (fun row => snd (fst row)) (rows_from 0 frames) /\
  frame_indices c = map snd (rows_from 0 frames).
Proof.
  unfold extract_and_visualize_features.
  rewrite collect_from_rows. cbn [all_features nothing_collected app].
  destruct (map (fun row => fst (fst row)) (rows_from 0 frames));
    [discriminate|].
  intros [= <-]. repeat split.
Qed.
End FeatureCollectionFacts.

Section FeatureCollectionTheorems.
Context {F : Type}.
Implicit Types (frames : list (frame_result F)) (c : collected F).

Lemma rows_from_length frames : forall frame_idx,
  List.length (rows_from frame_idx frames) =
  list_sum (map (fun r => List.length (box_names r)) frames).
Proof.
  induction frames as [|r frames IH]; intros frame_idx;
    cbn [rows_from map list_sum]; [reflexivity|].
  now rewrite length_app, length_map, IH.
Qed.

(** X11: what is saved and returned is aligned: there are as many feature
    rows as labels and as frame indices, one for every box detected in the
    video. *)
Theorem collected_lists_are_aligned frames c :
  extract_and_visualize_features frames = Some c ->
  List.length (all_features c) = List.length (all_labels c) /\
  List.length (frame_indices c) = List.length (all_labels c) /\
  List.length (all_labels c) =
    list_sum (map (fun r => List.length (box_names r)) frames).
Proof.
  intros Hc. destruct (extracted_rows frames c Hc) as (-> & -> & ->).
  rewrite !length_map. repeat split. apply rows_from_length.
Qed.

(** X12: the function gives up with [None, None], saving nothing, exactly
    when no frame of the video has a detection. *)
Theorem nothing_extracted_iff_no_detection frames :
  extract_and_visualize_features frames = None <->
  forall r, In r frames -> box_names r = [].
Proof.
  unfold extract_and_visualize_features. rewrite collect_from_rows.
  cbn [all_features nothing_collected app]. split.
  - intros Hnone r Hin.
    destruct (box_names r) as [|name names] eqn:Hboxes; [reflexivity|].
    exfalso. apply In_nth_error in Hin as [i Hi].
    assert (Hrow : In (features_np r, py_lower name, i) (rows_from 0 frames)).
    { apply rows_from_In. exists r, name. rewrite Nat.sub_0_r, Hboxes.
      repeat split; [apply Nat.le_0_l | exact Hi | now left]. }
    destruct (rows_from 0 frames); [contradiction | discriminate].
  - intros Hall. destruct (rows_from 0 frames) as [|[[f l] j] rows] eqn:E;
      [reflexivity|].
    exfalso.
    assert (Hrow : In (f, l, j) (rows_from 0 frames)) by (rewrite E; now left).
    apply rows_from_In in Hrow as (r & name & _ & Hnth & Hin & _).
    apply nth_error_In in Hnth. rewrite (Hall r Hnth) in Hin. contradiction.
Qed.

(** X13: the saved frame indices never decrease, and the index of a frame
    occurs once for every box detected in that frame (never, for a frame
    without detection or an index past the last frame). *)
Theorem frame_indices_count_boxes frames c :
  extract_and_visualize_features frames = Some c ->
  StronglySorted le (frame_indices c) /\
  forall i,
    count_occ Nat.eq_dec (frame_indices c) i =
    match nth_error frames i with
    | Some r => List.length (box_names r)
    | None => O
    end.
Proof.
  intros Hc. destruct (extracted_rows frames c Hc) as (_ & _ & ->).
  split; [apply rows_from_sorted|].
  intros i. rewrite rows_from_count. cbn [Nat.leb]. now rewrite Nat.sub_0_r.
Qed.

(** X14: row by row: the label at a position is the lower-cased class name
    of a box of the frame whose index stands at that position, and the
    feature row at that position is the feature array of that whole frame,
    so the rows of the boxes of one frame are the same array. *)
Theorem row_belongs_to_its_frame frames c j label :
  extract_and_visualize_features frames = Some c ->
  nth_error (all_labels c) j = Some label ->
  exists i r name,
    nth_error (frame_indices c) j = Some i /\
    nth_error frames i = Some r /\
    nth_error (all_features c) j = Some (features_np r) /\
    In name (box_names r) /\
    label = py_lower name.
Proof.
  intros Hc Hlabel. destruct (extracted_rows frames c Hc) as (Hf & Hl & Hi).
  rewrite Hl, nth_error_map in Hlabel. rewrite Hf, Hi, !nth_error_map.
  destruct (nth_error (rows_from 0 frames) j) as [[[f l] i]|] eqn:Hrow;
    [|discriminate].
  cbn in Hlabel. injection Hlabel as ->.
  apply nth_error_In, rows_from_In in Hrow
    as (r & name & _ & Hnth & Hin & -> & ->).
  rewrite Nat.sub_0_r in Hnth. now exists i, r, name.
Qed.

(** X15: the labels are the class names of the boxes in frame order, lower
    cased: lower-casing a label again changes nothing, and no label has a
    character between A and Z. *)
Theorem labels_are_lower_case frames c :
  extract_and_visualize_features frames = Some c ->
  all_labels c = flat_map (fun r => map py_lower (box_names r)) frames /\
  forall label,
    In label (all_labels c) ->
    py_lower label = label /\
    Forall (fun ch => ~ (65 <= nat_of_ascii ch <= 90)%nat)
      (list_ascii_of_string label).
Proof.
  intros Hc. destruct (extracted_rows frames c Hc) as (_ & -> & _).
  assert (Hflat : forall frame_idx,
             map (fun row : F * string * nat => snd (fst row))
               (rows_from frame_idx frames) =
             flat_map (fun r => map py_lower (box_names r)) frames).
  { clear Hc. induction frames as [|r rest IH]; intros frame_idx;
      cbn [rows_from map flat_map]; [reflexivity|].
    now rewrite map_app, map_map, IH. }
  split; [apply Hflat|].
  intros label Hin. apply in_map_iff in Hin as ([[f l] i] & <- & Hrow).
  apply rows_from_In in Hrow as (r & name & _ & _ & _ & _ & ->).
  cbn [fst snd]. split; [apply py_lower_idempotent|].
  induction name as [|ch name IH]; cbn [py_lower list_ascii_of_string];
    constructor; [apply lower_char_not_capital | exact IH].
Qed.
End FeatureCollectionTheorems.

Lemma collected_lists_are_aligned_witness :
  exists c,
    extract_and_visualize_features three_frame_results = Some c /\
    List.length (all_features c) = List.length (all_labels c) /\
    List.length (frame_indices c) = List.length (all_labels c) /\
    List.length (all_labels c) = 3%nat.
Proof.
  eexists. split; [reflexivity|].
  apply (collected_lists_are_aligned three_frame_results). reflexivity.
Defined.

Lemma frame_indices_count_boxes_witness :
  exists c,
    extract_and_visualize_features three_frame_results = Some c /\
    frame_indices c = [0; 0; 2]%nat /\
    StronglySorted le (frame_indices c) /\
    forall i,
      count_occ Nat.eq_dec (frame_indices c) i =
      match nth_error three_frame_results i with
      | Some r => List.length (box_names r)
      | None => O
      end.
Proof.
  eexists. split; [reflexivity|]. split; [reflexivity|].
  apply (frame_indices_count_boxes three_frame_results). reflexivity.
Defined.

Lemma row_belongs_to_its_frame_witness :
  exists c,
    extract_and_visualize_features three_frame_results = Some c /\
    exists i r name,
      nth_error (frame_indices c) 1 = Some i /\
      nth_error three_frame_results i = Some r /\
      nth_error (all_features c) 1 = Some (features_np r) /\
      In name (box_names r) /\
      "hook" = py_lower name.
Proof.
  eexists. split; [reflexivity|].
  apply (row_belongs_to_its_frame three_frame_results _ 1%nat "hook");
    reflexivity.
Defined.

Lemma labels_are_lower_case_witness :
  exists c,
    extract_and_visualize_features three_frame_results = Some c /\
    all_labels c = ["grasper"; "hook"; "clipper"] /\
    forall label,
      In label (all_labels c) ->
      py_lower label = label /\
      Forall (fun ch => ~ (65 <= nat_of_ascii ch <= 90)%nat)
        (list_ascii_of_string label).
Proof.
  eexists. split; [reflexivity|]. split; [reflexivity|].
  apply (labels_are_lower_case three_frame_results). reflexivity.
Defined.

(** * Feature statistics *)

Lemma list_sum_cons (a : nat) (l : list nat) :
  list_sum (a :: l) = (a + list_sum l)%nat.
Proof. reflexivity. Qed.

Lemma instrument_count_cons label labels instrument :
  instrument_count (label :: labels) instrument =
  ((if String.eqb label instrument then 1 else 0) +
   instrument_count labels instrument)%nat.
Proof.
  unfold instrument_count. cbn [filter].
  now destruct (String.eqb label instrument).
Qed.

Lemma no_instrument_matches label instruments :
  ~ In label instruments ->
  list_sum
    (map (fun instrument => if String.eqb label instrument then 1 else 0)%nat
       instruments) = 0%nat.
Proof.
  induction instruments as [|x l IH]; cbn [map In]; [reflexivity|].
  intros Hx. rewrite list_sum_cons, IH by tauto.
  destruct (String.eqb_spec label x) as [->|_]; [|reflexivity].
  exfalso. apply Hx. now left.
Qed.

Lemma one_instrument_matches label unique_instruments :
  NoDup unique_instruments -> In label unique_instruments ->
  list_sum
    (map (fun instrument => if String.eqb label instrument then 1 else 0)%nat
       unique_instruments) = 1%nat.
Proof.
  induction unique_instruments as [|u unique IH]; cbn [In map];
    [contradiction|].
  intros Hnd Hin. inversion Hnd as [|? ? Hout Hrest]; subst.
  rewrite list_sum_cons.
  destruct (String.eqb_spec label u) as [Heq|Hne].
  - subst u. now rewrite (no_instrument_matches label unique Hout).
  - destruct Hin as [->|Hin]; [contradiction|]. now rewrite IH.
Qed.

Lemma list_sum_map_add {A} (f g : A -> nat) (l : list A) :
  list_sum (map (fun x => f x + g x)%nat l) =
  (list_sum (map f l) + list_sum (map g l))%nat.
Proof.
  induction l as [|x l IH]; cbn [map]; [reflexivity|].
  rewrite !list_sum_cons, IH. lia.
Qed.

(** X16: the statistics [visualize_feature_space] prints add up: over the
    distinct instruments of [list(set(labels))], in whatever order the set
    gives them, the counts of features per instrument sum to the number of
    labels. *)
Theorem instrument_counts_add_up labels unique_instruments :
  NoDup unique_instruments ->
  (forall label, In label unique_instruments <-> In label labels) ->
  list_sum (map (instrument_count labels) unique_instruments) =
  List.length labels.
Proof.
  intros Hnd Hsame.
  assert (Hin : forall label, In label labels -> In label unique_instruments)
    by (intros label; apply Hsame).
  clear Hsame. induction labels as [|label labels IH]; cbn [List.length].
  - clear Hnd Hin. induction unique_instruments as [|u unique IHu];
      cbn [map]; [reflexivity|].
    now rewrite list_sum_cons, IHu.
  - rewrite (map_ext _ (fun instrument =>
               (if String.eqb label instrument then 1 else 0) +
               instrument_count labels instrument)%nat)
      by (intros u; apply instrument_count_cons).
    rewrite list_sum_map_add, one_instrument_matches, IH; try assumption.
    + reflexivity.
    + intros l Hl. apply Hin. now right.
    + apply Hin. now left.
Qed.

Lemma instrument_counts_add_up_witness :
  list_sum (map (instrument_count ["grasper"; "hook"; "grasper"])
              ["hook"; "grasper"]) = 3%nat.
Proof.
  apply (instrument_counts_add_up ["grasper"; "hook"; "grasper"]
           ["hook"; "grasper"]).
  - repeat constructor; cbn [In]; intuition discriminate.
  - intros label. cbn [In]. intuition.
Defined.

(** ** The first entry of an index *)

Lemma fold_add_key_head l : forall a keys,
  exists rest, fold_left add_key l (a :: keys) = a :: rest.
Proof.
  induction l as [|x l IH]; intros a keys; cbn [fold_left].
  - now exists keys.
  - unfold add_key at 2. destruct (existsb (Z.eqb x) (a :: keys)).
    + apply IH.
    + cbn [app]. apply IH.
Qed.

Lemma build_index_keys data index frames :
  build_index data = Ok index -> frames_of data = Some frames ->
  dict_keys index = first_occurrences (present_frame_numbers frames).
Proof.
  intros Hbuild Hframes.
  apply build_index_inv in Hbuild as (frames' & st & Hframes' & _ & Hloop & ->).
  assert (frames' = frames) as -> by congruence.
  apply frames_loop_keys in Hloop. exact Hloop.
Qed.

Lemma main_json_file_eq : json_file_of main_evaluator "VID01" = main_json_file.
Proof. reflexivity. Qed.

(** The loader as [main] runs it, on a loadable document. *)
Lemma main_loader_returns (files_now : string -> option file) data frames :
  files_now main_json_file = Some (Document data) ->
  loadable data = true -> frames_of data = Some frames ->
  exists index w,
    load_ground_truth main_evaluator "VID01"
      {| files := files_now; stdout := [] |} = (Ok index, w) /\
    dict_keys index = first_occurrences (present_frame_numbers frames).
Proof.
  intros Hfile Hload Hframes.
  apply build_index_Ok_iff in Hload as [index Hbuild].
  destruct (run_fst (load_ground_truth main_evaluator "VID01")
              {| files := files_now; stdout := [] |} (Ok index)) as [w Hrun].
  { rewrite load_ground_truth_result, main_json_file_eq. cbn [files].
    now rewrite Hfile. }
  exists index, w. split; [exact Hrun|].
  now apply (build_index_keys data).
Qed.

(** * The script around the loader *)

Section ScriptFacts.
Context {E yolo verb : Type}.
Variable YOLO : string -> E + yolo.
Variable load_from_checkpoint : string -> E + verb.
Variable to_device : verb -> E + verb.
Variable hierarchical_dir : string.


(** A statement of the script that leaves files and folders alone. *)
Local Abbreviation steady s :=
  (forall m, disk (snd (s m)) = disk m /\ folders (snd (s m)) = folders m).

Lemma steady_sbind {A B} (s : @Script E A) (k : A -> @Script E B) :
  steady s -> (forall a, steady (k a)) -> steady (sbind s k).
Proof.
  intros Hs Hk m. unfold sbind. destruct (Hs m) as [Hd Hf].
  destruct (s m) as [[a|r] m1]; cbn [snd] in *; [|now split].
  destruct (Hk a m1) as [Hd1 Hf1]. split; congruence.
Qed.

Lemma steady_attempt {A} (body : @Script E A) (handler : raised -> @Script E A) :
  steady body -> (forall r, steady (handler r)) -> steady (attempt body handler).
Proof.
  intros Hs Hk m. unfold attempt. destruct (Hs m) as [Hd Hf].
  destruct (body m) as [[a|r] m1]; cbn [snd] in *; [now split|].
  destruct (Hk r m1) as [Hd1 Hf1]. split; congruence.
Qed.

Lemma steady_run_loader {A} (stmt : M A) :
  reads_files_only stmt -> steady (@run_loader E A stmt).
Proof.
  intros Hreads m. unfold run_loader.
  destruct (Hreads {| files := disk m; stdout := [] |}) as (Hfiles & _ & _).
  destruct (stmt {| files := disk m; stdout := [] |}) as [r w].
  cbn [snd disk folders files] in *. now split.
Qed.

Ltac steady_step :=
  first [ apply steady_sbind; [|intros ?]
        | apply steady_attempt; [|intros ?]
        | apply steady_run_loader;
          first [apply reads_load_ground_truth | apply reads_lift]
        | match goal with
          | |- context [if ?b then _ else _] => destruct b
          | |- context [let '(_, _) := ?p in _] => destruct p
          end
        | solve [intros m; split; reflexivity] ].

Lemma steady_main :
  steady (main YOLO load_from_checkpoint to_device hierarchical_dir).
Proof.
  unfold main, setup_paths, load_yolo_model, load_verb_model, new_evaluator.
  repeat steady_step.
Qed.

(** X17: [main] never raises: whatever is missing or malformed, and
    whatever the libraries or the loader raise, it ends normally after
    printing; it changes neither files nor folders. *)
Theorem main_never_raises m :
  exists m',
    main YOLO load_from_checkpoint to_device hierarchical_dir m
    = (Returned tt, m') /\
    disk m' = disk m /\ folders m' = folders m.
Proof.
  destruct (steady_main m) as [Hd Hf].
  destruct (main YOLO load_from_checkpoint to_device hierarchical_dir m)
    as [r m'] eqn:Hmain.
  exists m'. cbn [snd] in *.
  split; [|now split]. f_equal.
  unfold main, attempt in Hmain.
  match type of Hmain with
  | match ?body with _ => _ end = _ => destruct body as [[[]|e] m1]
  end.
  - now injection Hmain as <- _.
  - unfold say in Hmain. now injection Hmain as <- _.
Qed.

Lemma machine_eq d f (c c' : list (@line E)) :
  c = c' ->
  {| disk := d; folders := f; console := c |} =
  {| disk := d; folders := f; console := c' |}.
Proof. now intros ->. Qed.

(** X18: [main] checks the three paths before anything else, in the order
    YOLO weights, verb checkpoint, dataset folder: when one is missing it
    prints the three path lines and one error line naming the first missing
    path, and does nothing more: no model is loaded and no annotation is
    read. *)
Theorem main_stops_at_first_missing_path m :
  (there m (expected_yolo_weights hierarchical_dir) = false ->
   main YOLO load_from_checkpoint to_device hierarchical_dir m =
   (Returned tt,
    {| disk := disk m; folders := folders m;
       console :=
         (console m ++ path_lines hierarchical_dir ++
          [ErrorDuringEvaluation
             (PathNotFound YoloWeights
                (expected_yolo_weights hierarchical_dir))])%list |})) /\
  (there m (expected_yolo_weights hierarchical_dir) = true ->
   there m (expected_verb_model_path hierarchical_dir) = false ->
   main YOLO load_from_checkpoint to_device hierarchical_dir m =
   (Returned tt,
    {| disk := disk m; folders := folders m;
       console :=
         (console m ++ path_lines hierarchical_dir ++
          [ErrorDuringEvaluation
             (PathNotFound VerbCheckpoint
                (expected_verb_model_path hierarchical_dir))])%list |})) /\
  (there m (expected_yolo_weights hierarchical_dir) = true ->
   there m (expected_verb_model_path hierarchical_dir) = true ->
   there m "/data/Bartscht/HeiChole" = false ->
   main YOLO load_from_checkpoint to_device hierarchical_dir m =
   (Returned tt,
    {| disk := disk m; folders := folders m;
       console :=
         (console m ++ path_lines hierarchical_dir ++
          [ErrorDuringEvaluation
             (PathNotFound DatasetFolder "/data/Bartscht/HeiChole")])%list |})).
Proof.
  unfold there, path_lines, expected_yolo_weights, expected_verb_model_path.
  cbv beta iota zeta delta
    [main attempt sbind setup_paths say path_exists sraise
     disk folders console].
  repeat split; intros;
    repeat match goal with
           | H : _ = _ |- _ =>
               rewrite H; clear H;
               cbv beta iota zeta delta [negb disk folders console]
           end;
    f_equal; apply machine_eq; now rewrite <- !app_assoc.
Qed.

(** What [main] does once the paths are there and the models load: it runs
    the loader on VID01 and reports on its result. *)
Lemma main_when_ready m :
  ready YOLO load_from_checkpoint to_device hierarchical_dir m ->
  main YOLO load_from_checkpoint to_device hierarchical_dir m =
  (Returned tt,
   {| disk := disk m; folders := folders m;
      console :=
        (console m ++
         ready_lines hierarchical_dir ++
         map Printed
           (stdout (snd (load_ground_truth main_evaluator "VID01"
                           {| files := disk m; stdout := [] |}))) ++
         report_lines
           (fst (load_ground_truth main_evaluator "VID01"
                   {| files := disk m; stdout := [] |})))%list |}).
Proof.
  intros ((y & v & v' & Hy & Hv & Hto) & Hyw & Hvp & Hds).
  unfold path_exists in Hyw, Hvp, Hds. cbn [fst] in Hyw, Hvp, Hds.
  injection Hyw as Hyw. injection Hvp as Hvp. injection Hds as Hds.
  destruct (reads_load_ground_truth main_evaluator "VID01"
              {| files := disk m; stdout := [] |}) as (Hfiles & _ & _).
  cbv beta iota zeta delta
    [main attempt sbind setup_paths load_yolo_model load_verb_model
     new_evaluator say path_exists sraise sret call run_loader lift].
  cbn [disk folders console negb]. rewrite Hyw.
  cbn [disk folders console negb]. rewrite Hvp.
  cbn [disk folders console negb]. rewrite Hds.
  cbn [disk folders console negb yolo_weights]. rewrite Hy.
  cbn [disk folders console verb_model_path]. rewrite Hv.
  cbn [disk folders console]. rewrite Hto.
  cbn [disk folders console dataset_path].
  change {| dataset_dir := "/data/Bartscht/HeiChole" |} with main_evaluator.
  destruct (load_ground_truth main_evaluator "VID01"
              {| files := disk m; stdout := [] |}) as [[index|e] w].
  - cbn [fst snd files stdout disk folders console] in *.
    destruct index as [|[n entry] index];
      cbn [dict_keys map list_getitem nth_error fst].
    + f_equal. rewrite Hfiles. apply machine_eq. unfold ready_lines.
      cbn [fst snd files stdout disk folders console map app report_lines].
      rewrite ?app_nil_r, <- ?app_assoc. reflexivity.
    + unfold defaultdict_getitem. cbn [dict_get]. rewrite key_eqb_refl.
      cbn [dict_get]. rewrite key_eqb_refl.
      f_equal. rewrite Hfiles. apply machine_eq. unfold ready_lines.
      cbn [fst snd files stdout disk folders console map app report_lines].
      rewrite ?app_nil_r, <- ?app_assoc. reflexivity.
  - f_equal. cbn [fst snd files stdout disk folders console] in *.
    rewrite Hfiles. apply machine_eq. unfold ready_lines.
    cbn [fst snd files stdout disk folders console map app report_lines].
    rewrite ?app_nil_r, <- ?app_assoc. reflexivity.
Qed.

(** X19: a file that loads can still make [main] report an error: when
    the annotations of VID01 load but no frame has anything present, the
    loader returns the empty index, and [main] ends with the [IndexError]
    of its subscript [list(annotations.keys())[0]], printed as its error
    line. *)
Theorem main_reports_IndexError_when_nothing_present m data frames :
  ready YOLO load_from_checkpoint to_device hierarchical_dir m ->
  disk m main_json_file = Some (Document data) ->
  loadable data = true ->
  frames_of data = Some frames ->
  present_frame_numbers frames = [] ->
  exists w,
    load_ground_truth main_evaluator "VID01"
      {| files := disk m; stdout := [] |} = (Ok [], w) /\
    main YOLO load_from_checkpoint to_device hierarchical_dir m =
    (Returned tt,
     {| disk := disk m; folders := folders m;
        console :=
          (console m ++ ready_lines hierarchical_dir ++
           map Printed (stdout w) ++
           [SampleOfLoadedAnnotations;
            ErrorDuringEvaluation (Builtin IndexError)])%list |}).
Proof.
  intros Hready Hfile Hload Hframes Hnone.
  destruct (main_loader_returns (disk m) data frames Hfile Hload Hframes)
    as (index & w & Hrun & Hkeys).
  rewrite Hnone in Hkeys. cbn in Hkeys.
  destruct index as [|[n entry] index]; [|discriminate].
  exists w. split; [exact Hrun|].
  rewrite (main_when_ready m Hready), Hrun. reflexivity.
Qed.

(** X20: when the annotations of VID01 load and some frame has something
    present, the sample [main] prints is the first such frame in document
    order, with the instruments and verbs stored for it, and no error line
    follows. *)
Theorem main_shows_first_present_frame m data frames n others :
  ready YOLO load_from_checkpoint to_device hierarchical_dir m ->
  disk m main_json_file = Some (Document data) ->
  loadable data = true ->
  frames_of data = Some frames ->
  present_frame_numbers frames = n :: others ->
  exists index w,
    load_ground_truth main_evaluator "VID01"
      {| files := disk m; stdout := [] |} = (Ok index, w) /\
    main YOLO load_from_checkpoint to_device hierarchical_dir m =
    (Returned tt,
     {| disk := disk m; folders := folders m;
        console :=
          (console m ++ ready_lines hierarchical_dir ++
           map Printed (stdout w) ++
           [SampleOfLoadedAnnotations;
            SampleFrame n;
            SampleInstruments (instruments (lookup_frame index n));
            SampleActions (verbs (lookup_frame index n))])%list |}).
Proof.
  intros Hready Hfile Hload Hframes Hfirst.
  destruct (main_loader_returns (disk m) data frames Hfile Hload Hframes)
    as (index & w & Hrun & Hkeys).
  rewrite Hfirst in Hkeys. unfold first_occurrences in Hkeys.
  cbn [fold_left] in Hkeys.
  destruct (fold_add_key_head others n []) as [rest Hrest].
  change (add_key [] n) with [n] in Hkeys. rewrite Hrest in Hkeys.
  destruct index as [|[n' entry] index]; [discriminate|].
  injection Hkeys as -> _.
  exists ((n, entry) :: index), w. split; [exact Hrun|].
  rewrite (main_when_ready m Hready), Hrun.
  rewrite lookup_frame_get. cbn [dict_get]. rewrite key_eqb_refl.
  reflexivity.
Qed.
End ScriptFacts.

(** * The further properties on the examples *)

Lemma first_defective_frame_decides_witness :
  exists w', load_ground_truth heichole "VID13" archive = (Raise TypeError, w').
Proof.
  apply (first_defective_frame_decides heichole "VID13" archive two_defects
           [("0", JObj [("instruments", JObj [("grasper", JInt 1)])])]
           ("1", JObj [("instruments", JObj [("hook", JStr "yes")])])
           [("abc", JObj [])]).
  - reflexivity.
  - reflexivity.
  - intros x [<-|[]]. reflexivity.
  - reflexivity.
Defined.

Lemma returned_call_prints_statistics_witness :
  exists data frame_num frame_data rest,
    files dataset (json_file_of heichole "VID01") = Some (Document data) /\
    frames_of data = Some ((frame_num, frame_data) :: rest) /\
    files (snd (load_ground_truth heichole "VID01" dataset)) = files dataset /\
    stdout (snd (load_ground_truth heichole "VID01" dataset)) =
    (stdout dataset ++
     success_lines (json_file_of heichole "VID01")
       ((frame_num, frame_data) :: rest) frame_data two_frames_index)%list.
Proof.
  apply (returned_call_prints_statistics heichole "VID01" dataset
           two_frames_index).
  reflexivity.
Defined.

Lemma raised_call_prints_error_last_witness :
  files (snd (load_ground_truth heichole "VID03" dataset)) = files dataset /\
  exists progress,
    Forall progress_line progress /\
    stdout (snd (load_ground_truth heichole "VID03" dataset)) =
    (stdout dataset ++
     LoadingAnnotationsFrom (json_file_of heichole "VID03")
       :: progress ++ [ErrorLoadingAnnotations ValueError])%list.
Proof.
  apply (raised_call_prints_error_last heichole "VID03" dataset ValueError).
  reflexivity.
Defined.

Lemma frames_with_equal_numbers_merge_witness :
  (In "hook" (instrument_set
                [(7, {| instruments := [("grasper", 1); ("hook", 1)];
                        verbs := [] |})] 7) <->
   exists frame_num frame_data,
     In (frame_num, frame_data) same_number_items /\
     py_int frame_num = Ok 7 /\
     present_in frame_data "instruments" "hook") /\
  (In "hook" (verb_set
                [(7, {| instruments := [("grasper", 1); ("hook", 1)];
                        verbs := [] |})] 7) <->
   exists frame_num frame_data,
     In (frame_num, frame_data) same_number_items /\
     py_int frame_num = Ok 7 /\
     present_in frame_data "actions" "hook").
Proof.
  apply (frames_with_equal_numbers_merge heichole "VID12" archive _
           (snd (load_ground_truth heichole "VID12" archive)) same_number
           same_number_items).
  - reflexivity.
  - reflexivity.
  - reflexivity.
Defined.

Lemma returned_index_is_proper_witness : proper_index two_frames_index.
Proof.
  apply (returned_index_is_proper heichole "VID01" dataset two_frames_index
           (snd (load_ground_truth heichole "VID01" dataset))).
  reflexivity.
Defined.

Lemma index_keeps_document_order_witness :
  dict_keys two_frames_index =
    first_occurrences (present_frame_numbers two_frames_items) /\
  (distinct_frame_numbers two_frames_items = true ->
   dict_keys two_frames_index = present_frame_numbers two_frames_items).
Proof.
  apply (index_keeps_document_order heichole "VID01" dataset two_frames_index
           (snd (load_ground_truth heichole "VID01" dataset)) two_frames).
  - reflexivity.
  - reflexivity.
  - reflexivity.
Defined.

Lemma frame_order_is_irrelevant_witness :
  exists index2 w3,
    load_ground_truth heichole "VID11" archive = (Ok index2, w3) /\
    (forall n, In n (dict_keys two_frames_index) <-> In n (dict_keys index2)) /\
    (forall n name,
        (In name (instrument_set two_frames_index n) <->
         In name (instrument_set index2 n)) /\
        (In name (verb_set two_frames_index n) <->
         In name (verb_set index2 n))).
Proof.
  apply (frame_order_is_irrelevant heichole "VID01" dataset two_frames_index
           (snd (load_ground_truth heichole "VID01" dataset))
           two_frames two_frames_items
           heichole "VID11" archive two_frames_reversed (rev two_frames_items)).
  - reflexivity.
  - reflexivity.
  - reflexivity.
  - reflexivity.
  - reflexivity.
  - apply Permutation_rev.
Defined.

Lemma only_the_annotation_file_is_read_witness :
  fst (load_ground_truth heichole "VID01" dataset) =
  fst (load_ground_truth heichole "VID01" archive).
Proof.
  apply (only_the_annotation_file_is_read heichole "VID01" dataset archive).
  reflexivity.
Defined.

Lemma annotation_file_path_witness :
  json_file_of heichole "/tmp/VID01" = "/tmp/VID01.json" /\
  json_file_of {| dataset_dir := "" |} "VID01" = "Labels/VID01.json" /\
  json_file_of {| dataset_dir := "/data/" |} "VID01" = "/data/Labels/VID01.json" /\
  json_file_of heichole "VID01" = "/data/Bartscht/HeiChole/Labels/VID01.json".
Proof.
  split; [|split; [|split]].
  - apply (proj1 (annotation_file_path heichole "/tmp/VID01")). reflexivity.
  - apply (proj1 (proj2 (annotation_file_path {| dataset_dir := "" |} "VID01")));
      reflexivity.
  - apply (proj1 (proj2 (proj2
             (annotation_file_path {| dataset_dir := "/data/" |} "VID01"))));
      reflexivity.
  - apply (proj2 (proj2 (proj2 (annotation_file_path heichole "VID01"))));
      [reflexivity | discriminate | reflexivity].
Defined.

Lemma workstation_ready annotations :
  ready loads_anything loads_anything loads_anything repo_hierarchical_dir
    (workstation_with annotations true).
Proof.
  split; [exists tt, tt, tt; repeat split|]. repeat split.
Qed.

Lemma main_stops_at_first_missing_path_witness :
  main loads_anything loads_anything loads_anything repo_hierarchical_dir
    (workstation_with two_frames false) =
  (Returned tt,
   {| disk := disk (workstation_with two_frames false);
      folders := folders (workstation_with two_frames false);
      console :=
        path_lines repo_hierarchical_dir ++
        [ErrorDuringEvaluation
           (PathNotFound DatasetFolder "/data/Bartscht/HeiChole")] |}).
Proof.
  apply (proj2 (proj2
           (main_stops_at_first_missing_path loads_anything loads_anything
              loads_anything repo_hierarchical_dir
              (workstation_with two_frames false)))); reflexivity.
Defined.

Lemma main_reports_IndexError_when_nothing_present_witness :
  exists w,
    load_ground_truth main_evaluator "VID01"
      {| files := disk (workstation_with nothing_present true); stdout := [] |}
    = (Ok [], w) /\
    main loads_anything loads_anything loads_anything repo_hierarchical_dir
      (workstation_with nothing_present true) =
    (Returned tt,
     {| disk := disk (workstation_with nothing_present true);
        folders := folders (workstation_with nothing_present true);
        console :=
          ready_lines repo_hierarchical_dir ++
          map Printed (stdout w) ++
          [SampleOfLoadedAnnotations;
           ErrorDuringEvaluation (Builtin IndexError)] |}).
Proof.
  apply (main_reports_IndexError_when_nothing_present loads_anything
           loads_anything loads_anything repo_hierarchical_dir
           (workstation_with nothing_present true) nothing_present
           [("0", JObj [("instruments", JObj [("grasper", JInt 0)])])]).
  - apply workstation_ready.
  - reflexivity.
  - reflexivity.
  - reflexivity.
  - reflexivity.
Defined.

Lemma main_shows_first_present_frame_witness :
  exists index w,
    load_ground_truth main_evaluator "VID01"
      {| files := disk (workstation_with two_frames true); stdout := [] |}
    = (Ok index, w) /\
    main loads_anything loads_anything loads_anything repo_hierarchical_dir
      (workstation_with two_frames true) =
    (Returned tt,
     {| disk := disk (workstation_with two_frames true);
        folders := folders (workstation_with two_frames true);
        console :=
          ready_lines repo_hierarchical_dir ++
          map Printed (stdout w) ++
          [SampleOfLoadedAnnotations;
           SampleFrame 0;
           SampleInstruments (instruments (lookup_frame index 0));
           SampleActions (verbs (lookup_frame index 0))] |}).
Proof.
  apply (main_shows_first_present_frame loads_anything loads_anything
           loads_anything repo_hierarchical_dir
           (workstation_with two_frames true) two_frames two_frames_items
           0 []).
  - apply workstation_ready.
  - reflexivity.
  - reflexivity.
  - reflexivity.
  - reflexivity.
Defined.
